(** * The multimodal-agent notebook: captioning and detection tools

    A shallow embedding of [tutorials/005-multimodal-agent.ipynb]: the two
    LangChain tools [ImageCaptionTool] and [ObjectDetectionTool] and the
    helper functions [get_image_caption] and [detect_objects].

    The notebook's functions are glue: they call PIL, transformers and
    torch one after the other and format what comes back.  They are
    embedded as programs over the calls they make; a [library] gives the
    calls their meaning, and every theorem holds for all libraries (or for
    all libraries that honour a stated contract of the third-party
    function involved). *)

From Stdlib Require Import ZArith List String Ascii Lia Bool.
From Stdlib Require Import Floats.SpecFloat.
From stdpp Require Import base gmap strings pretty.

Import ListNotations.
Local Open Scope string_scope.
Local Open Scope Z_scope.
Local Open Scope list_scope.

(** ** Python values *)

(** An exception: the name of its class and the text of its arguments. *)
Record exception := Exception { exc_type : string; exc_args : string }.

Definition NotImplementedError (msg : string) := Exception "NotImplementedError" msg.
Definition IndexError (msg : string) := Exception "IndexError" msg.
Definition KeyError (key : Z) := Exception "KeyError" (pretty key).
Definition ValueError (msg : string) := Exception "ValueError" msg.
Definition OverflowError (msg : string) := Exception "OverflowError" msg.

(** What evaluating an expression gives: an exception raised, or a value. *)
Definition result (X : Type) : Type := (exception + X)%type.

Definition then_ {X Y} (r : result X) (k : X -> result Y) : result Y :=
  match r with
  | inl e => inl e
  | inr x => k x
  end.

Declare Scope result_scope.
Delimit Scope result_scope with result.
Notation "x <- r ;; k" := (then_ r (fun x => k))
  (at level 100, r at next level, right associativity) : result_scope.

Definition newline : string := String "010"%char "".

(** [seq[i]] for a literal index [i >= 0], on a Python list or on a
    tensor.  Out of range both raise [IndexError]; the class is what is
    modelled, and one text stands for the messages, which differ between
    the two ("list index out of range", "index 0 is out of bounds for
    dimension 0 with size 0"). *)
Definition getitem {X} (l : list X) (i : nat) : result X :=
  match l !! i with
  | Some x => inr x
  | None => inl (IndexError "index out of range")
  end.

(** [d[key]] on a dict with integer keys. *)
Definition dict_getitem {V} (d : gmap Z V) (key : Z) : result V :=
  match d !! key with
  | Some v => inr v
  | None => inl (KeyError key)
  end.

(** [zip(a, b, c)]: stops at the shortest argument. *)
Fixpoint zip3 {A B C} (a : list A) (b : list B) (c : list C) : list (A * B * C) :=
  match a, b, c with
  | x :: a', y :: b', z :: c' => (x, y, z) :: zip3 a' b' c'
  | _, _, _ => []
  end.

(** Floats are IEEE 754 values, [spec_float] of the Standard Library:
    [S754_finite s m e] is [(-1)^s * m * 2^e]. *)

(** The literal [0.9]: the binary64 number nearest to nine tenths,
    [0x1.ccccccccccccdp-1]. *)
Definition py_0_9 : spec_float := S754_finite false 8106479329266893 (-53).

(** [int(x)] for a float [x]: truncation towards zero. *)
Definition int (x : spec_float) : result Z :=
  match x with
  | S754_zero _ => inr 0
  | S754_infinity _ => inl (OverflowError "cannot convert float infinity to integer")
  | S754_nan => inl (ValueError "cannot convert float NaN to integer")
  | S754_finite s m e =>
      let v := if 0 <=? e then Z.pos m * 2 ^ e else Z.pos m / 2 ^ (- e) in
      inr (if s then - v else v)
  end.

(** Exact comparison of two finite magnitudes [m1 * 2^e1] and [m2 * 2^e2]. *)
Definition magnitude_compare (m1 : positive) (e1 : Z) (m2 : positive) (e2 : Z) : comparison :=
  let e := Z.min e1 e2 in
  Z.compare (Z.pos m1 * 2 ^ (e1 - e)) (Z.pos m2 * 2 ^ (e2 - e)).

(** The order of two floats, [None] when one of them is a NaN. *)
Definition float_compare (x y : spec_float) : option comparison :=
  match x, y with
  | S754_nan, _ | _, S754_nan => None
  | S754_infinity s1, S754_infinity s2 =>
      Some (match s1, s2 with
            | true, false => Lt
            | false, true => Gt
            | _, _ => Eq
            end)
  | S754_infinity s, _ => Some (if s then Lt else Gt)
  | _, S754_infinity s => Some (if s then Gt else Lt)
  | S754_zero _, S754_zero _ => Some Eq
  | S754_zero _, S754_finite s _ _ => Some (if s then Gt else Lt)
  | S754_finite s _ _, S754_zero _ => Some (if s then Lt else Gt)
  | S754_finite s1 m1 e1, S754_finite s2 m2 e2 =>
      Some (match s1, s2 with
            | true, false => Lt
            | false, true => Gt
            | false, false => magnitude_compare m1 e1 m2 e2
            | true, true => CompOpp (magnitude_compare m1 e1 m2 e2)
            end)
  end.

(** [x > y], [x >= y] and [x < y]; each is [False] on a NaN. *)
Definition float_gt (x y : spec_float) : bool :=
  match float_compare x y with Some Gt => true | _ => false end.
Definition float_ge (x y : spec_float) : bool :=
  match float_compare x y with Some Gt | Some Eq => true | _ => false end.
Definition float_lt (x y : spec_float) : bool :=
  match float_compare x y with Some Lt => true | _ => false end.

(** ** The objects of the third-party libraries *)

(** The result of [post_process_object_detection] for one image: a dict
    with the keys "scores", "labels" and "boxes", each a tensor with one
    row per detection kept. *)
Record DetrResult := {
  scores : list spec_float;
  labels : list Z;
  boxes : list (list spec_float)
}.

(** The objects the notebook only passes around are opaque; it looks
    into them in three places: the size of an image, the label table of
    a model and the text of a float. *)
Class Platform := {
  (** everything outside the notebook: files, the model hub and its
      cache on disk, the GPU, random state *)
  World : Type;
  PILImage : Type;
  BlipProcessor : Type;
  BlipModel : Type;
  BlipInputs : Type;
  DetrProcessor : Type;
  DetrModel : Type;
  DetrInputs : Type;
  DetrOutputs : Type;
  (** [image.size], a pair (width, height) *)
  image_size : PILImage -> Z * Z;
  (** [model.config.id2label] *)
  id2label : DetrModel -> gmap Z string;
  (** [str.format] of a float *)
  float_str : spec_float -> string
}.

(** The calls into PIL, transformers and torch, with the type of what
    each returns. *)
Inductive call `{Platform} : Type -> Type :=
| Image_open (fp : string) : call PILImage
| Image_convert (im : PILImage) (mode : string) : call PILImage
| BlipProcessor_from_pretrained (name : string) : call BlipProcessor
| BlipForConditionalGeneration_from_pretrained (name : string) : call BlipModel
| BlipModel_to (m : BlipModel) (device : string) : call BlipModel
| BlipProcessor_call (p : BlipProcessor) (images : PILImage) (return_tensors : string)
    : call BlipInputs
| BlipInputs_to (inputs : BlipInputs) (device : string) : call BlipInputs
| BlipModel_generate (m : BlipModel) (inputs : BlipInputs) (max_new_tokens : Z)
    : call (list (list Z))
| BlipProcessor_decode (p : BlipProcessor) (token_ids : list Z) (skip_special_tokens : bool)
    : call string
| DetrImageProcessor_from_pretrained (name : string) : call DetrProcessor
| DetrForObjectDetection_from_pretrained (name : string) : call DetrModel
| DetrImageProcessor_call (p : DetrProcessor) (images : PILImage) (return_tensors : string)
    : call DetrInputs
| DetrModel_call (m : DetrModel) (inputs : DetrInputs) : call DetrOutputs
| post_process_object_detection (p : DetrProcessor) (outputs : DetrOutputs)
    (target_sizes : list (list Z)) (threshold : spec_float)
    : call (list DetrResult).

(** A library answers every call, in a world and changing it. *)
Definition library `{Platform} : Type :=
  forall X, call X -> World -> result X * World.

(** [torch.tensor([image.size[::-1]])]: one row, (height, width).  The
    constructor only wraps the nested list it is given, so it is taken
    as the value it builds and not as a call the library answers: it
    leaves no entry in the log of a run. *)
Definition tuple_reversed (size : Z * Z) : list Z := [snd size; fst size].
Definition torch_tensor (rows : list (list Z)) : list (list Z) := rows.

(** ** Formatting the detections *)

Section Formatting.
Context `{Platform}.

(** ['[{}, {}, {}, {}]'.format(int(box[0]), int(box[1]), int(box[2]), int(box[3]))] *)
Definition format_box (box : list spec_float) : result string :=
  (b0 <- getitem box 0 ;; x1 <- int b0 ;;
   b1 <- getitem box 1 ;; y1 <- int b1 ;;
   b2 <- getitem box 2 ;; x2 <- int b2 ;;
   b3 <- getitem box 3 ;; y2 <- int b3 ;;
   inr ("[" +:+ pretty x1 +:+ ", " +:+ pretty y1 +:+ ", "
            +:+ pretty x2 +:+ ", " +:+ pretty y2 +:+ "]"))%result.

(** The [for score, label, box in zip(...)] loop, started with the text
    accumulated so far.  [label] is an integer tensor element, so
    [int(label)] is the label itself; [score] is a float tensor element
    and [float(score)] is its value. *)
Fixpoint detections_loop (labels_of : gmap Z string) (detections : string)
    (rows : list (spec_float * Z * list spec_float)) : result string :=
  match rows with
  | [] => inr detections
  | (score, label, box) :: rows' =>
      (coords <- format_box box ;;
       let detections := detections +:+ coords in
       class_name <- dict_getitem labels_of label ;;
       let detections := detections +:+ " " +:+ class_name in
       let detections := detections +:+ " " +:+ float_str score +:+ newline in
       detections_loop labels_of detections rows')%result
  end.

End Formatting.

(** ** Tool objects and programs *)

(** The fields a tool carries: the class attributes [name] and
    [description] of a [BaseTool] subclass. *)
Record BaseTool := { name : string; description : string }.

Inductive attr := attr_name | attr_description.

Definition getattr (self : BaseTool) (a : attr) : string :=
  match a with
  | attr_name => name self
  | attr_description => description self
  end.

Definition setattr (self : BaseTool) (a : attr) (v : string) : BaseTool :=
  match a with
  | attr_name => {| name := v; description := description self |}
  | attr_description => {| name := name self; description := v |}
  end.

(** The statements a method body is made of: return, raise, sequencing,
    a call into a library, reading and writing a field of [self], and
    try/except.  The receiver [self] is not an argument of a body: a run
    carries it along, and a body reaches it with [GetAttr] and [SetAttr].
    The notebook's functions use the first four statements only (see
    [glue] below); the others are there so that "does not touch the tool"
    and "catches nothing" are properties of these functions and not of
    the language. *)
Inductive Prog `{Platform} : Type -> Type :=
| Ret {R} (r : R) : Prog R
| Raise {R} (e : exception) : Prog R
| Bind {X R} (p : Prog X) (k : X -> Prog R) : Prog R
| Call {X} (c : call X) : Prog X
| GetAttr (a : attr) : Prog string
| SetAttr (a : attr) (v : string) : Prog unit
| Try {R} (body : Prog R) (handler : exception -> Prog R) : Prog R.

Declare Scope prog_scope.
Delimit Scope prog_scope with prog.
Bind Scope prog_scope with Prog.
Notation "x <- p ;; k" := (Bind p (fun x => k))
  (at level 100, p at next level, right associativity) : prog_scope.

(** A Python expression evaluated inside a method body. *)
Definition lift `{Platform} {X} (r : result X) : Prog X :=
  match r with
  | inl e => Raise e
  | inr x => Ret x
  end.

(** One line of the log of a run: a call and what the library answered. *)
Record entry `{Platform} := Entry {
  entry_ret : Type;
  entry_call : call entry_ret;
  entry_outcome : result entry_ret
}.
Arguments Entry {_ _} _ _.

(** What a run leaves behind: the value returned or the exception raised,
    the tool object, the world, and the log of the calls made. *)
Record Outcome `{Platform} (R : Type) := {
  res : result R;
  self_after : BaseTool;
  world_after : World;
  trace : list entry
}.
Arguments res {_ _} _.
Arguments self_after {_ _} _.
Arguments world_after {_ _} _.
Arguments trace {_ _} _.

Section Exec.
Context `{Platform} (lib : library).

Fixpoint exec {R} (p : Prog R) (self : BaseTool) (w : World) : Outcome R :=
  match p in Prog R return Outcome R with
  | Ret r => {| res := inr r; self_after := self; world_after := w; trace := [] |}
  | Raise e => {| res := inl e; self_after := self; world_after := w; trace := [] |}
  | Bind p k =>
      match exec p self w with
      | {| res := inl e; self_after := self1; world_after := w1; trace := t1 |} =>
          {| res := inl e; self_after := self1; world_after := w1; trace := t1 |}
      | {| res := inr x; self_after := self1; world_after := w1; trace := t1 |} =>
          match exec (k x) self1 w1 with
          | {| res := r; self_after := self2; world_after := w2; trace := t2 |} =>
              {| res := r; self_after := self2; world_after := w2; trace := t1 ++ t2 |}
          end
      end
  | Call c =>
      match lib _ c w with
      | (r, w1) =>
          {| res := r; self_after := self; world_after := w1; trace := [Entry c r] |}
      end
  | GetAttr a =>
      {| res := inr (getattr self a); self_after := self; world_after := w; trace := [] |}
  | SetAttr a v =>
      {| res := inr tt; self_after := setattr self a v; world_after := w; trace := [] |}
  | Try body handler =>
      match exec body self w with
      | {| res := inr x; self_after := self1; world_after := w1; trace := t1 |} =>
          {| res := inr x; self_after := self1; world_after := w1; trace := t1 |}
      | {| res := inl e; self_after := self1; world_after := w1; trace := t1 |} =>
          match exec (handler e) self1 w1 with
          | {| res := r; self_after := self2; world_after := w2; trace := t2 |} =>
              {| res := r; self_after := self2; world_after := w2; trace := t1 ++ t2 |}
          end
      end
  end.

End Exec.

(** ** The notebook *)

Module ImageCaptionTool.

(** [ImageCaptionTool()] *)
Definition new : BaseTool :=
  {| name := "Image Captioner";
     description := "Generate captions for images" |}.

Section Methods.
Context `{Platform}.

Definition _run (img_path : string) : Prog string :=
  (image <- Call (Image_open img_path) ;;
   image <- Call (Image_convert image "RGB") ;;
   let model_name := "Salesforce/blip-image-captioning-large" in
   let device := "cuda" in
   processor <- Call (BlipProcessor_from_pretrained model_name) ;;
   model <- Call (BlipForConditionalGeneration_from_pretrained model_name) ;;
   model <- Call (BlipModel_to model device) ;;
   inputs <- Call (BlipProcessor_call processor image "pt") ;;
   inputs <- Call (BlipInputs_to inputs device) ;;
   outputs <- Call (BlipModel_generate model inputs 20) ;;
   first <- lift (getitem outputs 0) ;;
   caption <- Call (BlipProcessor_decode processor first true) ;;
   Ret caption)%prog.

Definition _arun (query : string) : Prog string :=
  Raise (NotImplementedError "This tool does not support async").

End Methods.
End ImageCaptionTool.

Module ObjectDetectionTool.

(** [ObjectDetectionTool()] *)
Definition new : BaseTool :=
  {| name := "Object detector";
     description :=
       "Use this tool when given the path to an image that you would like to detect objects. "
       +:+ "It will return a list of all detected objects. Each element in the list in the format: "
       +:+ "[x1, y1, x2, y2] class_name confidence_score." |}.

Section Methods.
Context `{Platform}.

Definition _run (img_path : string) : Prog string :=
  (image <- Call (Image_open img_path) ;;
   image <- Call (Image_convert image "RGB") ;;
   processor <- Call (DetrImageProcessor_from_pretrained "facebook/detr-resnet-50") ;;
   model <- Call (DetrForObjectDetection_from_pretrained "facebook/detr-resnet-50") ;;
   inputs <- Call (DetrImageProcessor_call processor image "pt") ;;
   outputs <- Call (DetrModel_call model inputs) ;;
   let target_sizes := torch_tensor [tuple_reversed (image_size image)] in
   all_results <- Call (post_process_object_detection processor outputs target_sizes py_0_9) ;;
   results <- lift (getitem all_results 0) ;;
   lift (detections_loop (id2label model) ""
           (zip3 (scores results) (labels results) (boxes results))))%prog.

Definition _arun (query : string) : Prog string :=
  Raise (NotImplementedError "This tool does not support async").

End Methods.
End ObjectDetectionTool.

Section Helpers.
Context `{Platform}.

Definition get_image_caption (image_path : string) : Prog string :=
  (image <- Call (Image_open image_path) ;;
   image <- Call (Image_convert image "RGB") ;;
   let model_name := "Salesforce/blip-image-captioning-large" in
   let device := "cuda" in
   processor <- Call (BlipProcessor_from_pretrained model_name) ;;
   model <- Call (BlipForConditionalGeneration_from_pretrained model_name) ;;
   model <- Call (BlipModel_to model device) ;;
   inputs <- Call (BlipProcessor_call processor image "pt") ;;
   inputs <- Call (BlipInputs_to inputs device) ;;
   output <- Call (BlipModel_generate model inputs 20) ;;
   first <- lift (getitem output 0) ;;
   caption <- Call (BlipProcessor_decode processor first true) ;;
   Ret caption)%prog.

Definition detect_objects (image_path : string) : Prog string :=
  (image <- Call (Image_open image_path) ;;
   image <- Call (Image_convert image "RGB") ;;
   processor <- Call (DetrImageProcessor_from_pretrained "facebook/detr-resnet-50") ;;
   model <- Call (DetrForObjectDetection_from_pretrained "facebook/detr-resnet-50") ;;
   inputs <- Call (DetrImageProcessor_call processor image "pt") ;;
   outputs <- Call (DetrModel_call model inputs) ;;
   let target_sizes := torch_tensor [tuple_reversed (image_size image)] in
   all_results <- Call (post_process_object_detection processor outputs target_sizes py_0_9) ;;
   results <- lift (getitem all_results 0) ;;
   lift (detections_loop (id2label model) ""
           (zip3 (scores results) (labels results) (boxes results))))%prog.

End Helpers.

(** ** Reading a log *)

Section Logs.
Context `{Platform}.

(** The results the successful post-processing calls of a log returned. *)
Definition post_processed (t : list entry) : list (list DetrResult) :=
  flat_map (fun en =>
    match entry_call en in call X return result X -> list (list DetrResult) with
    | post_process_object_detection _ _ _ _ =>
        fun r => match r with inr rs => [rs] | inl _ => [] end
    | _ => fun _ => []
    end (entry_outcome en)) t.

(** The checkpoint names the [from_pretrained] calls of a log asked for. *)
Definition pretrained_loads (t : list entry) : list string :=
  flat_map (fun en =>
    match entry_call en with
    | BlipProcessor_from_pretrained n
    | BlipForConditionalGeneration_from_pretrained n
    | DetrImageProcessor_from_pretrained n
    | DetrForObjectDetection_from_pretrained n => [n]
    | _ => []
    end) t.

(** The token budgets the [generate] calls of a log were given. *)
Definition generation_budgets (t : list entry) : list Z :=
  flat_map (fun en =>
    match entry_call en with
    | BlipModel_generate _ _ n => [n]
    | _ => []
    end) t.

(** The exception a log entry failed with, if it failed. *)
Definition entry_failure (en : entry) : option exception :=
  match entry_outcome en with
  | inl e => Some e
  | inr _ => None
  end.

(** The library answered call [c] with [r] during the run. *)
Definition answered {X R} (c : call X) (r : result X) (o : Outcome R) : Prop :=
  In (Entry c r) (trace o).

(** [uncaught o]: a call that failed during the run is the last call
    made, and its exception is the outcome of the run. *)
Definition uncaught {R} (o : Outcome R) : Prop :=
  forall t1 en t2 e,
    trace o = t1 ++ en :: t2 ->
    entry_failure en = Some e ->
    t2 = [] /\ res o = inl e.

End Logs.

(** ** Programs that are plain glue *)

(** A body made of returns, raises, sequencing and library calls only:
    it has no try/except and does not touch [self]. *)
Inductive glue `{Platform} : forall R, Prog R -> Prop :=
| glue_Ret R (r : R) : glue R (Ret r)
| glue_Raise R e : glue R (Raise e)
| glue_Call X (c : call X) : glue X (Call c)
| glue_Bind X R (p : Prog X) (k : X -> Prog R) :
    glue X p -> (forall x, glue R (k x)) -> glue R (Bind p k).
Arguments glue {_ _} _.

(** ** Contracts of the third-party functions *)

Section Contracts.
Context `{Platform} (lib : library).

(** [post_process_object_detection] keeps the detections whose score is
    greater than the threshold (the notebook's comment: "let's only keep
    detections with score > 0.9"). *)
Definition keeps_above_threshold : Prop :=
  forall p outputs target_sizes threshold w rs w',
    lib _ (post_process_object_detection p outputs target_sizes threshold) w = (inr rs, w') ->
    Forall (fun r => Forall (fun s => float_gt s threshold = true) (scores r)) rs.

(** [generate] returns sequences that extend the prompt of the inputs by
    at most [max_new_tokens] tokens. *)
Definition generates_within_budget (prompt_length : BlipInputs -> nat) : Prop :=
  forall m inputs max_new_tokens w seqs w',
    lib _ (BlipModel_generate m inputs max_new_tokens) w = (inr seqs, w') ->
    Forall (fun s => (length s <= prompt_length inputs + Z.to_nat max_new_tokens)%nat) seqs.

(** The path opens and converts to an RGB image. *)
Definition opens_as_RGB (w : World) (path : string) : Prop :=
  exists im0 w0 im w1,
    lib _ (Image_open path) w = (inr im0, w0) /\
    lib _ (Image_convert im0 "RGB") w0 = (inr im, w1).

(** [Image.open(path).convert('RGB')] raises [e], leaving world [w']. *)
Definition fails_to_open_as_RGB (w : World) (path : string) (e : exception) (w' : World)
    : Prop :=
  lib _ (Image_open path) w = (inl e, w') \/
  exists im0 w0,
    lib _ (Image_open path) w = (inr im0, w0) /\
    lib _ (Image_convert im0 "RGB") w0 = (inl e, w').

End Contracts.

(** ** The text of a detection *)

Section Lines.
Context `{Platform}.

(** [line] is "[x1, y1, x2, y2] label score" for the detection
    [(score, label, box)] under the label table [labels_of]. *)
Definition detection_line (labels_of : gmap Z string)
    (d : spec_float * Z * list spec_float) (line : string) : Prop :=
  let '(score, label, box) := d in
  exists (x1 y1 x2 y2 : Z) (b0 b1 b2 b3 : spec_float) (class_name : string),
    box !! 0%nat = Some b0 /\ int b0 = inr x1 /\
    box !! 1%nat = Some b1 /\ int b1 = inr y1 /\
    box !! 2%nat = Some b2 /\ int b2 = inr x2 /\
    box !! 3%nat = Some b3 /\ int b3 = inr y2 /\
    labels_of !! label = Some class_name /\
    line = "[" +:+ pretty x1 +:+ ", " +:+ pretty y1 +:+ ", "
               +:+ pretty x2 +:+ ", " +:+ pretty y2 +:+ "]"
               +:+ " " +:+ class_name +:+ " " +:+ float_str score.

(** [line] has the shape "[x1, y1, x2, y2] label score": four integers
    in decimal, a class name and a float as [str.format] prints it. *)
Definition formatted_line (line : string) : Prop :=
  exists (x1 y1 x2 y2 : Z) (class_name : string) (score : spec_float),
    line = "[" +:+ pretty x1 +:+ ", " +:+ pretty y1 +:+ ", "
               +:+ pretty x2 +:+ ", " +:+ pretty y2 +:+ "]"
               +:+ " " +:+ class_name +:+ " " +:+ float_str score.

(** The rows the loop of the detection functions goes through. *)
Definition rows_of (results : DetrResult) : list (spec_float * Z * list spec_float) :=
  zip3 (scores results) (labels results) (boxes results).

(** The two forms of each wrapper: the tool method and the helper. *)
Definition captioners (path : string) : list (Prog string) :=
  [ImageCaptionTool._run path; get_image_caption path].
Definition detectors (path : string) : list (Prog string) :=
  [ObjectDetectionTool._run path; detect_objects path].

(** A row the loop can print: four finite coordinates (at least) and a
    label the table knows. *)
Definition printable (labels_of : gmap Z string)
    (row : spec_float * Z * list spec_float) : Prop :=
  let '(_, label, box) := row in
  (forall i, (i < 4)%nat -> exists b x, box !! i = Some b /\ int b = inr x) /\
  is_Some (labels_of !! label).

(** The text made of the given lines, each ended by a newline. *)
Definition unlines (lines : list string) : string :=
  fold_right (fun line rest => line +:+ newline +:+ rest) "" lines.

End Lines.

(** ** A small concrete library

    Pictures on a disk that carry what the two models would find in
    them.  It honours both contracts above and serves to run the notebook's
    functions on concrete inputs. *)

Module Toy.

Record picture := {
  width : Z;
  height : Z;
  (** the word ids the captioner emits for the picture *)
  words : list Z;
  (** the (score, label, box) queries the detector emits for it *)
  queries : list (spec_float * Z * list spec_float)
}.

Record world := {
  disk : gmap string picture;
  hub_reachable : bool;
  cuda_available : bool;
  (** how many checkpoints have been loaded so far *)
  loaded : nat
}.

(** Token ids of the two special tokens. *)
Definition bos : Z := 30522.
Definition eos : Z := 102.

Definition vocabulary : gmap Z string :=
  {[ 1037 := "a"; 2482 := "car"; 2006 := "on"; 2395 := "street" ]}.

Definition coco_labels : gmap Z string :=
  {[ 1 := "person"; 3 := "car"; 10 := "traffic light" ]}.

#[local] Instance platform : Platform := {|
  World := world;
  PILImage := picture;
  BlipProcessor := unit;
  BlipModel := unit;
  BlipInputs := picture;
  DetrProcessor := unit;
  DetrModel := unit;
  DetrInputs := picture;
  DetrOutputs := picture;
  image_size := fun im => (width im, height im);
  id2label := fun _ => coco_labels;
  float_str := fun x =>
    match x with
    | S754_zero s => if s then "-0.0" else "0.0"
    | S754_infinity s => if s then "-inf" else "inf"
    | S754_nan => "nan"
    | S754_finite s m e => (if s then "-" else "") +:+ pretty (Z.pos m) +:+ "p" +:+ pretty e
    end
|}.

Definition from_pretrained (w : world) : result unit * world :=
  if hub_reachable w
  then (inr tt, {| disk := disk w; hub_reachable := true;
                   cuda_available := cuda_available w; loaded := S (loaded w) |})
  else (inl (Exception "OSError" "cannot load the checkpoint"), w).

Definition to_device {X} (x : X) (device : string) (w : world) : result X * world :=
  if cuda_available w
  then (inr x, w)
  else (inl (Exception "AssertionError" "Torch not compiled with CUDA enabled"), w).

Definition generate (inputs : picture) (max_new_tokens : Z) : list (list Z) :=
  [bos :: take (Z.to_nat max_new_tokens) (words inputs ++ [eos])].

Definition decode (token_ids : list Z) (skip_special_tokens : bool) : string :=
  fold_right (fun t rest =>
    if skip_special_tokens && ((t =? bos) || (t =? eos)) then rest
    else match vocabulary !! t with
         | Some word => word +:+ (if String.eqb rest "" then "" else " " +:+ rest)
         | None => rest
         end) "" token_ids.

Definition post_process (outputs : picture) (threshold : spec_float) : list DetrResult :=
  let kept := filter (fun q => float_gt (fst (fst q)) threshold = true) (queries outputs) in
  [ {| scores := map (fun q => fst (fst q)) kept;
       labels := map (fun q => snd (fst q)) kept;
       boxes := map snd kept |} ].

Definition lib : library := fun X c =>
  match c in call X return world -> result X * world with
  | Image_open fp => fun w =>
      match disk w !! fp with
      | Some im => (inr im, w)
      | None => (inl (Exception "FileNotFoundError" fp), w)
      end
  | Image_convert im mode => fun w => (inr im, w)
  | BlipProcessor_from_pretrained _ => from_pretrained
  | BlipForConditionalGeneration_from_pretrained _ => from_pretrained
  | BlipModel_to m device => to_device m device
  | BlipProcessor_call p images _ => fun w => (inr images, w)
  | BlipInputs_to inputs device => to_device inputs device
  | BlipModel_generate m inputs n => fun w => (inr (generate inputs n), w)
  | BlipProcessor_decode p ids skip => fun w => (inr (decode ids skip), w)
  | DetrImageProcessor_from_pretrained _ => from_pretrained
  | DetrForObjectDetection_from_pretrained _ => from_pretrained
  | DetrImageProcessor_call p images _ => fun w => (inr images, w)
  | DetrModel_call m inputs => fun w => (inr inputs, w)
  | post_process_object_detection p outputs _ threshold => fun w =>
      (inr (post_process outputs threshold), w)
  end.

(** 0.998, 0.95 and 0.5 as binary64 values. *)
Definition f_0_998 : spec_float := S754_finite false 4494592428115755 (-52).
Definition f_0_95 : spec_float := S754_finite false 4278419646001971 (-52).
Definition f_0_5 : spec_float := S754_finite false 1 (-1).
Definition f_of_Z (n : positive) : spec_float := S754_finite false n 0.
(** 13.75 *)
Definition f_13_75 : spec_float := S754_finite false 55 (-2).

Definition traffic : picture := {|
  width := 640; height := 480;
  words := [1037; 2482; 2006; 1037; 2395];
  queries := [ (f_0_95, 3, [f_13_75; f_of_Z 52; f_of_Z 310; f_of_Z 269]);
               (f_0_5, 1, [f_of_Z 1; f_of_Z 2; f_of_Z 3; f_of_Z 4]);
               (f_0_998, 10, [f_of_Z 400; f_of_Z 12; f_of_Z 431; f_of_Z 88]) ]
|}.

(** A picture the captioner has no words for and the detector finds
    nothing certain in. *)
Definition blank : picture := {|
  width := 8; height := 8;
  words := [];
  queries := [ (f_0_5, 1, [S754_zero false; S754_zero false; f_of_Z 8; f_of_Z 8]) ]
|}.

Definition home : world := {|
  disk := {[ "traffic.jpg" := traffic; "blank.png" := blank ]};
  hub_reachable := true;
  cuda_available := true;
  loaded := 0
|}.

(** The same disk when the model hub cannot be reached. *)
Definition offline : world := {|
  disk := disk home;
  hub_reachable := false;
  cuda_available := true;
  loaded := 0
|}.

(** A body that catches the failure of a call, and one that renames the
    tool: what the notebook's functions do not do. *)
Definition open_or_default (path : string) : Prog string :=
  Try (_ <- Call (Image_open path) ;; Ret "opened")%prog
      (fun _ => Ret "no image").

Definition rename (v : string) : Prog unit := SetAttr attr_name v.

(** The same disk on a machine without a GPU. *)
Definition laptop : world := {|
  disk := disk home;
  hub_reachable := true;
  cuda_available := false;
  loaded := 0
|}.

End Toy.

(** ** More readings of a log, and of a text *)

Section MoreLogs.
Context `{Platform}.

(** The devices the [.to(device)] calls of a log asked for. *)
Definition devices_requested (t : list entry) : list string :=
  flat_map (fun en =>
    match entry_call en with
    | BlipModel_to _ device
    | BlipInputs_to _ device => [device]
    | _ => []
    end) t.

(** The images the successful [convert] calls of a log returned. *)
Definition converted_images (t : list entry) : list PILImage :=
  flat_map (fun en =>
    match entry_call en in call X return result X -> list PILImage with
    | Image_convert _ _ => fun r => match r with inr im => [im] | inl _ => [] end
    | _ => fun _ => []
    end (entry_outcome en)) t.

(** The target sizes the post-processing calls of a log were given. *)
Definition post_process_sizes (t : list entry) : list (list (list Z)) :=
  flat_map (fun en =>
    match entry_call en with
    | post_process_object_detection _ _ sizes _ => [sizes]
    | _ => []
    end) t.

(** The batches the successful [generate] calls of a log returned. *)
Definition generated (t : list entry) : list (list (list Z)) :=
  flat_map (fun en =>
    match entry_call en in call X return result X -> list (list (list Z)) with
    | BlipModel_generate _ _ _ => fun r => match r with inr seqs => [seqs] | inl _ => [] end
    | _ => fun _ => []
    end (entry_outcome en)) t.

(** The token sequences the [decode] calls of a log were given, each with
    its [skip_special_tokens] flag. *)
Definition decode_requests (t : list entry) : list (list Z * bool) :=
  flat_map (fun en =>
    match entry_call en with
    | BlipProcessor_decode _ ids skip => [(ids, skip)]
    | _ => []
    end) t.

End MoreLogs.

(** How many newline characters a text holds. *)
Fixpoint count_newlines (s : string) : nat :=
  match s with
  | EmptyString => 0%nat
  | String c s' => ((if Ascii.eqb c "010"%char then 1 else 0) + count_newlines s')%nat
  end.

(** ** The answers of the library along a run *)

Section Answers.
Context `{Platform} (lib : library).

(** From world [w], [Image.open(path)] and then [.convert('RGB')] answer
    with an image, the second with [image], leaving world [w']. *)
Definition opened_as (w : World) (path : string) (image : PILImage) (w' : World) : Prop :=
  exists image0 w0,
    lib _ (Image_open path) w = (inr image0, w0) /\
    lib _ (Image_convert image0 "RGB") w0 = (inr image, w').

(** From world [w], the calls of a detection function up to
    post-processing are all answered with a value: [model] by
    [DetrForObjectDetection.from_pretrained] and [rs] by
    [post_process_object_detection], which leaves world [w']. *)
Definition detection_post_processed (w : World) (path : string)
    (model : DetrModel) (rs : list DetrResult) (w' : World) : Prop :=
  exists image w1 processor w2 w3 inputs w4 outputs w5,
    opened_as w path image w1 /\
    lib _ (DetrImageProcessor_from_pretrained "facebook/detr-resnet-50") w1
      = (inr processor, w2) /\
    lib _ (DetrForObjectDetection_from_pretrained "facebook/detr-resnet-50") w2
      = (inr model, w3) /\
    lib _ (DetrImageProcessor_call processor image "pt") w3 = (inr inputs, w4) /\
    lib _ (DetrModel_call model inputs) w4 = (inr outputs, w5) /\
    lib _ (post_process_object_detection processor outputs
             (torch_tensor [tuple_reversed (image_size image)]) py_0_9) w5
      = (inr rs, w').

(** From world [w], the calls of a captioning function up to [generate]
    are all answered with a value: [processor] by
    [BlipProcessor.from_pretrained], [inputs] by the [.to(device)] of the
    processed image and [seqs] by [generate], which leaves world [w']. *)
Definition caption_generated (w : World) (path : string)
    (processor : BlipProcessor) (inputs : BlipInputs) (seqs : list (list Z))
    (w' : World) : Prop :=
  exists image w1 w2 model0 w3 model w4 inputs0 w5 w6,
    opened_as w path image w1 /\
    lib _ (BlipProcessor_from_pretrained "Salesforce/blip-image-captioning-large") w1
      = (inr processor, w2) /\
    lib _ (BlipForConditionalGeneration_from_pretrained
             "Salesforce/blip-image-captioning-large") w2
      = (inr model0, w3) /\
    lib _ (BlipModel_to model0 "cuda") w3 = (inr model, w4) /\
    lib _ (BlipProcessor_call processor image "pt") w4 = (inr inputs0, w5) /\
    lib _ (BlipInputs_to inputs0 "cuda") w5 = (inr inputs, w6) /\
    lib _ (BlipModel_generate model inputs 20) w6 = (inr seqs, w').

End Answers.

(** ** More pictures and libraries *)

Module Cases.

(** A picture whose second detection carries a label the table lacks. *)
Definition stray : Toy.picture := {|
  Toy.width := 64; Toy.height := 48;
  Toy.words := [1037; 2482];
  Toy.queries := [ (Toy.f_0_95, 3, [Toy.f_of_Z 1; Toy.f_of_Z 2; Toy.f_of_Z 3; Toy.f_of_Z 4]);
                   (Toy.f_0_998, 7, [Toy.f_of_Z 5; Toy.f_of_Z 6; Toy.f_of_Z 7; Toy.f_of_Z 8]);
                   (Toy.f_0_998, 1, [Toy.f_of_Z 9; Toy.f_of_Z 9; Toy.f_of_Z 9; Toy.f_of_Z 9]) ]
|}.

(** A picture whose detection has a box with a NaN in it. *)
Definition wild : Toy.picture := {|
  Toy.width := 64; Toy.height := 48;
  Toy.words := [];
  Toy.queries := [ (Toy.f_0_95, 3, [Toy.f_of_Z 1; S754_nan; Toy.f_of_Z 3; Toy.f_of_Z 4]) ]
|}.

(** A disk with these pictures. *)
Definition gallery : Toy.world := {|
  Toy.disk := {[ "stray.png" := stray; "wild.png" := wild; "traffic.jpg" := Toy.traffic ]};
  Toy.hub_reachable := true;
  Toy.cuda_available := true;
  Toy.loaded := 0
|}.

(** The library of [Toy], except that post-processing and generation
    answer with an empty batch. *)
Definition silent : @library Toy.platform := fun X c =>
  match c in call X return Toy.world -> result X * Toy.world with
  | post_process_object_detection _ _ _ _ => fun w => (inr [], w)
  | BlipModel_generate _ _ _ => fun w => (inr [], w)
  | c' => Toy.lib _ c'
  end.

(** The library of [Toy], except that post-processing answers with three
    scores, two labels and four boxes. *)
Definition ragged : @library Toy.platform := fun X c =>
  match c in call X return Toy.world -> result X * Toy.world with
  | post_process_object_detection _ _ _ _ => fun w =>
      (inr [ {| scores := [Toy.f_0_95; Toy.f_0_998; Toy.f_0_95];
                labels := [3; 1];
                boxes := [ [Toy.f_of_Z 1; Toy.f_of_Z 2; Toy.f_of_Z 3; Toy.f_of_Z 4];
                           [Toy.f_of_Z 5; Toy.f_of_Z 6; Toy.f_of_Z 7; Toy.f_of_Z 8];
                           [Toy.f_of_Z 9; Toy.f_of_Z 9; Toy.f_of_Z 9; Toy.f_of_Z 9];
                           [Toy.f_of_Z 2; Toy.f_of_Z 2; Toy.f_of_Z 2; Toy.f_of_Z 2] ] |} ], w)
  | c' => Toy.lib _ c'
  end.

End Cases.

(** ** Tactics for stepping through a run *)

(** One step of a run: the next statement is a library call (or a Python
    expression); split on its answer and rewrite the four components of
    the outcome. *)
Ltac rewrite_outcome H :=
  let Hr := fresh in let Hs := fresh in let Hw := fresh in let Ht := fresh in
  destruct H as (Hr & Hs & Hw & Ht);
  rewrite ?Hr, ?Hs, ?Hw, ?Ht; clear Hr Hs Hw Ht.

Ltac run_call inl_lemma inr_lemma :=
  match goal with
  | |- context [exec ?lib (Bind (Call ?c) ?k) ?self ?w] =>
      let E := fresh "E" in
      destruct (lib _ c w) as [[?e|?x] ?w] eqn:E;
      [ rewrite_outcome (inl_lemma _ _ c k self w _ _ E)
      | rewrite_outcome (inr_lemma _ _ c k self w _ _ E) ]
  end.

(** The same step when the answer of the library is known: [E]. *)
Ltac run_known lemma E :=
  match goal with
  | |- context [exec ?lib (Bind (Call ?c) ?k) ?self ?w] =>
      rewrite_outcome (lemma _ _ c k self w _ _ E)
  end.

Ltac run_lift inl_lemma inr_lemma :=
  match goal with
  | |- context [exec ?lib (Bind (lift ?r) ?k) ?self ?w] =>
      let E := fresh "E" in
      destruct r as [?e|?x] eqn:E
  end;
  match goal with
  | |- context [exec ?lib (Bind (lift (inl ?e)) ?k) ?self ?w] =>
      rewrite_outcome (inl_lemma _ _ (@inl exception _ e) k self w e eq_refl)
  | |- context [exec ?lib (Bind (lift (inr ?x)) ?k) ?self ?w] =>
      rewrite_outcome (inr_lemma _ _ (@inr exception _ x) k self w x eq_refl)
  end.

(** The step of a Python expression whose value is known: [E]. *)
Ltac run_lift_known lemma E :=
  match goal with
  | |- context [exec ?lib (Bind (lift ?r) ?k) ?self ?w] =>
      rewrite_outcome (lemma _ _ r k self w _ E)
  end.

(** ** Running programs *)

Section Running.
Context `{Platform} (lib : library).

Lemma exec_lift {X} (r : result X) self w :
  exec lib (lift r) self w =
  {| res := r; self_after := self; world_after := w; trace := [] |}.
Proof. destruct r; reflexivity. Qed.

(** A run of plain glue leaves the tool object as it was. *)
Lemma glue_self_after {R} (p : Prog R) :
  glue p -> forall self w, self_after (exec lib p self w) = self.
Proof.
  induction 1 as [R r|R e|X c|X R p k _ IHp _ IHk]; intros self w; cbn [exec].
  - reflexivity.
  - reflexivity.
  - destruct (lib X c w); reflexivity.
  - specialize (IHp self w).
    destruct (exec lib p self w) as [[e|x] self1 w1 t1]; cbn in *; [assumption|].
    subst self1. specialize (IHk x self w1).
    destruct (exec lib (k x) self w1); cbn in *. assumption.
Qed.

(** A run of plain glue does not depend on the tool object. *)
Lemma glue_self_irrelevant {R} (p : Prog R) :
  glue p -> forall self1 self2 w,
    res (exec lib p self1 w) = res (exec lib p self2 w) /\
    world_after (exec lib p self1 w) = world_after (exec lib p self2 w) /\
    trace (exec lib p self1 w) = trace (exec lib p self2 w).
Proof.
  induction 1 as [R r|R e|X c|X R p k Hp IHp Hk IHk]; intros self1 self2 w; cbn [exec].
  - auto.
  - auto.
  - destruct (lib X c w); auto.
  - destruct (IHp self1 self2 w) as (Hr & Hw & Ht).
    pose proof (glue_self_after p Hp self1 w) as Hs1.
    pose proof (glue_self_after p Hp self2 w) as Hs2.
    destruct (exec lib p self1 w) as [r1 s1 w1 t1].
    destruct (exec lib p self2 w) as [r2 s2 w2 t2].
    cbn in Hr, Hw, Ht, Hs1, Hs2. subst r2 w2 t2 s1 s2.
    destruct r1 as [e|x]; cbn; [auto|].
    destruct (IHk x self1 self2 w1) as (Hr & Hw & Ht).
    destruct (exec lib (k x) self1 w1) as [r1' s1' w1' t1'].
    destruct (exec lib (k x) self2 w1) as [r2' s2' w2' t2'].
    cbn in *. subst. auto.
Qed.




End Running.

(** ** The formatting loop *)

Lemma append_cons ch (a b : string) : String ch a +:+ b = String ch (a +:+ b).
Proof. reflexivity. Qed.

Lemma append_assoc (a b c : string) : (a +:+ b) +:+ c = a +:+ b +:+ c.
Proof.
  induction a as [|ch a IH]; [reflexivity|].
  rewrite !append_cons, IH. reflexivity.
Qed.

Lemma append_nil_r (a : string) : a +:+ "" = a.
Proof.
  induction a as [|ch a IH]; [reflexivity|].
  rewrite append_cons, IH. reflexivity.
Qed.

Lemma getitem_inr {X} (l : list X) i x : getitem l i = inr x -> l !! i = Some x.
Proof. unfold getitem. destruct (l !! i); [intros [= ->]; reflexivity|discriminate]. Qed.

Lemma then_inr {X Y} (r : result X) (k : X -> result Y) y :
  then_ r k = inr y -> exists x, r = inr x /\ k x = inr y.
Proof. destruct r as [e|x]; cbn; [discriminate|]. intros Hk. exists x. auto. Qed.

Lemma float_gt_ge x y : float_gt x y = true -> float_ge x y = true.
Proof. unfold float_gt, float_ge. destruct (float_compare x y) as [[]|]; congruence. Qed.

Lemma float_gt_not_lt x y : float_gt x y = true -> float_lt x y = false.
Proof. unfold float_gt, float_lt. destruct (float_compare x y) as [[]|]; congruence. Qed.

Example int_truncates :
  int (S754_finite false 55 (-2)) = inr 13 /\      (* int(13.75) *)
  int (S754_finite true 55 (-2)) = inr (-13) /\    (* int(-13.75) *)
  int (S754_finite false 3 4) = inr 48 /\          (* int(48.0) *)
  int (S754_zero true) = inr 0.
Proof. repeat split; reflexivity. Qed.

Example float_order :
  float_gt (S754_finite false 4278419646001971 (-52)) py_0_9 = true /\   (* 0.95 > 0.9 *)
  float_gt (S754_finite false 1 (-1)) py_0_9 = false /\                  (* 0.5 > 0.9 *)
  float_gt py_0_9 py_0_9 = false /\
  float_ge py_0_9 py_0_9 = true /\
  float_gt S754_nan py_0_9 = false /\
  float_lt (S754_finite false 1 0) py_0_9 = false.                        (* 1.0 < 0.9 *)
Proof. repeat split; reflexivity. Qed.

Lemma zip3_scores {A B C} (P : A -> Prop) (a : list A) (b : list B) (c : list C) :
  Forall P a -> Forall (fun row => P (fst (fst row))) (zip3 a b c).
Proof.
  intros Ha. revert b c.
  induction Ha as [|x a Hx _ IH]; intros b c; cbn; [constructor|].
  destruct b as [|y b]; [constructor|]. destruct c as [|z c]; constructor; auto.
Qed.

Section Loop.
Context `{Platform}.

Lemma format_box_inr box coords :
  format_box box = inr coords ->
  exists (x1 y1 x2 y2 : Z) (b0 b1 b2 b3 : spec_float),
    box !! 0%nat = Some b0 /\ int b0 = inr x1 /\
    box !! 1%nat = Some b1 /\ int b1 = inr y1 /\
    box !! 2%nat = Some b2 /\ int b2 = inr x2 /\
    box !! 3%nat = Some b3 /\ int b3 = inr y2 /\
    coords = "[" +:+ pretty x1 +:+ ", " +:+ pretty y1 +:+ ", "
                 +:+ pretty x2 +:+ ", " +:+ pretty y2 +:+ "]".
Proof.
  unfold format_box. intros Hf.
  apply then_inr in Hf as (b0 & Hb0 & Hf). apply then_inr in Hf as (x1 & Hx1 & Hf).
  apply then_inr in Hf as (b1 & Hb1 & Hf). apply then_inr in Hf as (y1 & Hy1 & Hf).
  apply then_inr in Hf as (b2 & Hb2 & Hf). apply then_inr in Hf as (x2 & Hx2 & Hf).
  apply then_inr in Hf as (b3 & Hb3 & Hf). apply then_inr in Hf as (y2 & Hy2 & Hf).
  injection Hf as <-.
  exists x1, y1, x2, y2, b0, b1, b2, b3.
  repeat split; auto using getitem_inr.
Qed.

(** When the loop returns, it has appended one line per row, in the
    order of the rows, to the text it started with. *)
Lemma detections_loop_inr labels_of rows : forall detections text,
  detections_loop labels_of detections rows = inr text ->
  exists lines,
    Forall2 (detection_line labels_of) rows lines /\
    text = detections +:+ unlines lines.
Proof.
  induction rows as [|[[score label] box] rows IH]; intros detections text; cbn.
  - intros [= <-]. exists []. split; [constructor|]. cbn. symmetry. apply append_nil_r.
  - intros Hl.
    apply then_inr in Hl as (coords & Hbox & Hl).
    apply then_inr in Hl as (class_name & Hname & Hl).
    apply IH in Hl as (lines & Hlines & ->).
    apply format_box_inr in Hbox
      as (x1 & y1 & x2 & y2 & b0 & b1 & b2 & b3 & ? & ? & ? & ? & ? & ? & ? & ? & ->).
    unfold dict_getitem in Hname.
    destruct (labels_of !! label) as [cn|] eqn:Hlabel; [|discriminate].
    injection Hname as ->.
    eexists (_ :: lines). split.
    + constructor; [|exact Hlines].
      exists x1, y1, x2, y2, b0, b1, b2, b3, class_name.
      repeat split; try eassumption.
    + cbn [unlines fold_right]. fold (unlines lines).
      rewrite !append_assoc. reflexivity.
Qed.

Lemma format_box_printable box :
  (forall i, (i < 4)%nat -> exists b x, box !! i = Some b /\ int b = inr x) ->
  exists coords, format_box box = inr coords.
Proof.
  intros Hbox. unfold format_box, getitem.
  destruct (Hbox 0%nat) as (b0 & x1 & -> & Hx1); [lia|].
  destruct (Hbox 1%nat) as (b1 & y1 & -> & Hy1); [lia|].
  destruct (Hbox 2%nat) as (b2 & x2 & -> & Hx2); [lia|].
  destruct (Hbox 3%nat) as (b3 & y2 & -> & Hy2); [lia|].
  cbn [then_]. rewrite Hx1. cbn [then_]. rewrite Hy1. cbn [then_].
  rewrite Hx2. cbn [then_]. rewrite Hy2. cbn [then_]. eexists. reflexivity.
Qed.

(** The loop returns when every row can be printed. *)
Lemma detections_loop_returns labels_of rows :
  Forall (printable labels_of) rows ->
  forall detections, exists text, detections_loop labels_of detections rows = inr text.
Proof.
  induction 1 as [|[[score label] box] rows [Hbox [class_name Hlabel]] _ IH];
    intros detections; cbn [detections_loop].
  - eexists. reflexivity.
  - destruct (format_box_printable box Hbox) as (coords & ->). cbn [then_].
    unfold dict_getitem. rewrite Hlabel. cbn [then_]. apply IH.
Qed.

Lemma detection_line_formatted labels_of row line :
  detection_line labels_of row line -> formatted_line line.
Proof.
  destruct row as [[score label] box].
  intros (x1 & y1 & x2 & y2 & b0 & b1 & b2 & b3 & class_name & H').
  exists x1, y1, x2, y2, class_name, score. apply H'.
Qed.

Lemma unlines_newline lines :
  lines <> [] -> exists prefix, unlines lines = prefix +:+ newline.
Proof.
  induction lines as [|line lines IH]; [congruence|]. intros _. cbn.
  destruct lines as [|line' lines].
  - exists line. cbn. reflexivity.
  - destruct IH as [prefix Hp]; [congruence|].
    exists (line +:+ newline +:+ prefix).
    change (fold_right _ _ (line' :: lines)) with (unlines (line' :: lines)).
    rewrite Hp, !append_assoc. reflexivity.
Qed.

End Loop.

(** ** Runs of the notebook's functions *)

Section Runs.
Context `{Platform} (lib : library).

Lemma exec_Bind_Call_inl {X R} (c : call X) (k : X -> Prog R) self w e w' :
  lib _ c w = (inl e, w') ->
  res (exec lib (Bind (Call c) k) self w) = inl e /\
  self_after (exec lib (Bind (Call c) k) self w) = self /\
  world_after (exec lib (Bind (Call c) k) self w) = w' /\
  trace (exec lib (Bind (Call c) k) self w) = [Entry c (inl e)].
Proof. intros E. cbn [exec]. rewrite E. cbn. auto. Qed.

Lemma exec_Bind_Call_inr {X R} (c : call X) (k : X -> Prog R) self w x w' :
  lib _ c w = (inr x, w') ->
  res (exec lib (Bind (Call c) k) self w) = res (exec lib (k x) self w') /\
  self_after (exec lib (Bind (Call c) k) self w) = self_after (exec lib (k x) self w') /\
  world_after (exec lib (Bind (Call c) k) self w) = world_after (exec lib (k x) self w') /\
  trace (exec lib (Bind (Call c) k) self w) = Entry c (inr x) :: trace (exec lib (k x) self w').
Proof.
  intros E. cbn [exec]. rewrite E. destruct (exec lib (k x) self w'). cbn. auto.
Qed.

Lemma exec_Bind_lift_inl {X R} (r : result X) (k : X -> Prog R) self w e :
  r = inl e ->
  res (exec lib (Bind (lift r) k) self w) = inl e /\
  self_after (exec lib (Bind (lift r) k) self w) = self /\
  world_after (exec lib (Bind (lift r) k) self w) = w /\
  trace (exec lib (Bind (lift r) k) self w) = [].
Proof. intros ->. cbn. auto. Qed.

Lemma exec_Bind_lift_inr {X R} (r : result X) (k : X -> Prog R) self w x :
  r = inr x ->
  res (exec lib (Bind (lift r) k) self w) = res (exec lib (k x) self w) /\
  self_after (exec lib (Bind (lift r) k) self w) = self_after (exec lib (k x) self w) /\
  world_after (exec lib (Bind (lift r) k) self w) = world_after (exec lib (k x) self w) /\
  trace (exec lib (Bind (lift r) k) self w) = trace (exec lib (k x) self w).
Proof. intros ->. cbn [exec lift]. destruct (exec lib (k x) self w). cbn. auto. Qed.

Lemma glue_lift {X} (r : result X) : glue (lift r).
Proof. destruct r; constructor. Qed.

Lemma glue_get_image_caption path : glue (get_image_caption path).
Proof.
  unfold get_image_caption.
  repeat first [apply glue_lift | apply glue_Call | apply glue_Ret
               | apply glue_Bind; [|intros]].
Qed.

Lemma glue_detect_objects path : glue (detect_objects path).
Proof.
  unfold detect_objects.
  repeat first [apply glue_lift | apply glue_Call | apply glue_Ret
               | apply glue_Bind; [|intros]].
Qed.

Lemma captioners_same path p : In p (captioners path) -> p = get_image_caption path.
Proof. intros [<-|[<-|[]]]; reflexivity. Qed.

Lemma detectors_same path p : In p (detectors path) -> p = detect_objects path.
Proof. intros [<-|[<-|[]]]; reflexivity. Qed.

Lemma detect_objects_run self w path :
  let o := exec lib (detect_objects path) self w in
  (exists e, res o = inl e /\ post_processed (trace o) = []) \/
  (exists image processor model outputs rs w1,
     let post := post_process_object_detection processor outputs
                   (torch_tensor [tuple_reversed (image_size image)]) py_0_9 in
     lib _ post w1 = (inr rs, world_after o) /\
     answered post (inr rs) o /\
     answered (DetrForObjectDetection_from_pretrained "facebook/detr-resnet-50")
       (inr model) o /\
     post_processed (trace o) = [rs] /\
     pretrained_loads (trace o) = ["facebook/detr-resnet-50"; "facebook/detr-resnet-50"] /\
     res o = (results <- getitem rs 0 ;;
              detections_loop (id2label model) "" (rows_of results))%result).
Proof.
  unfold detect_objects, answered, rows_of. cbv zeta.
  do 7 (run_call (@exec_Bind_Call_inl) (@exec_Bind_Call_inr);
        [left; eexists; split; reflexivity|]).
  right. exists x0, x1, x2, x4, x5, w5.
  run_lift (@exec_Bind_lift_inl) (@exec_Bind_lift_inr).
  - repeat split; first [exact E5|cbn; tauto].
  - rewrite exec_lift. cbn [res trace world_after].
    repeat split; first [exact E5|cbn; tauto].
Qed.

Lemma get_image_caption_run self w path :
  let o := exec lib (get_image_caption path) self w in
  Forall (eq 20) (generation_budgets (trace o)) /\
  ((exists e, res o = inl e /\
      (e = IndexError "index out of range" \/
       last (trace o) ≫= entry_failure = Some e)) \/
   (exists processor model inputs seqs first caption w1 w2,
      lib _ (BlipModel_generate model inputs 20) w1 = (inr seqs, w2) /\
      seqs !! 0%nat = Some first /\
      answered (BlipModel_generate model inputs 20) (inr seqs) o /\
      answered (BlipProcessor_decode processor first true) (inr caption) o /\
      pretrained_loads (trace o) =
        ["Salesforce/blip-image-captioning-large"; "Salesforce/blip-image-captioning-large"] /\
      res o = inr caption)).
Proof.
  unfold get_image_caption, answered. cbv zeta.
  do 8 (run_call (@exec_Bind_Call_inl) (@exec_Bind_Call_inr);
        [split; [cbn; repeat constructor
                |left; eexists; split; [reflexivity|right; reflexivity]]|]).
  run_lift (@exec_Bind_lift_inl) (@exec_Bind_lift_inr).
  { split; [cbn; repeat constructor|left; eexists; split; [reflexivity|left]].
    unfold getitem in E7. destruct (x6 !! 0%nat); congruence. }
  run_call (@exec_Bind_Call_inl) (@exec_Bind_Call_inr);
    [split; [cbn; repeat constructor
            |left; eexists; split; [reflexivity|right; reflexivity]]|].
  cbn [exec res trace world_after].
  split; [cbn; repeat constructor|].
  right. exists x1, x3, x5, x6, x7, x8, w6, w7.
  repeat split; [exact E6|apply getitem_inr; exact E7|cbn; tauto|cbn; tauto].
Qed.

Lemma answered_post_processed {R} p outputs sizes threshold rs (o : Outcome R) :
  answered (post_process_object_detection p outputs sizes threshold) (inr rs) o ->
  In rs (post_processed (trace o)).
Proof.
  unfold answered, post_processed. intros Hin.
  apply in_flat_map. eexists. split; [exact Hin|]. cbn. auto.
Qed.

(** What a run of a detection function that got its post-processed
    results [rs] from the library returns. *)
Lemma detect_objects_answered self w path p outputs sizes threshold rs :
  answered (post_process_object_detection p outputs sizes threshold) (inr rs)
    (exec lib (detect_objects path) self w) ->
  exists model,
    answered (DetrForObjectDetection_from_pretrained "facebook/detr-resnet-50")
      (inr model) (exec lib (detect_objects path) self w) /\
    res (exec lib (detect_objects path) self w) =
      (results <- getitem rs 0 ;;
       detections_loop (id2label model) "" (rows_of results))%result.
Proof.
  intros Hin%answered_post_processed.
  destruct (detect_objects_run self w path)
    as [(e & _ & Hnone)
       |(image & processor & model & outputs' & rs' & w1 & _ & _ & Hmodel & Hone & _ & Hres)].
  - rewrite Hnone in Hin. destruct Hin.
  - rewrite Hone in Hin. destruct Hin as [->|[]]. exists model. auto.
Qed.

(** A run that got printable rows from the library returns a text. *)
Lemma detect_objects_returns_text self w path p outputs sizes threshold rs results :
  answered (post_process_object_detection p outputs sizes threshold) (inr rs)
    (exec lib (detect_objects path) self w) ->
  rs !! 0%nat = Some results ->
  (forall model,
     answered (DetrForObjectDetection_from_pretrained "facebook/detr-resnet-50")
       (inr model) (exec lib (detect_objects path) self w) ->
     Forall (printable (id2label model)) (rows_of results)) ->
  exists text, res (exec lib (detect_objects path) self w) = inr text.
Proof.
  intros Hans Hget Hrows.
  destruct (detect_objects_answered self w path _ _ _ _ _ Hans) as (model & Hmodel & Hres).
  rewrite Hres. unfold getitem. rewrite Hget. cbn [then_].
  apply detections_loop_returns. apply Hrows. exact Hmodel.
Qed.

(** What a run of a detection function that returns went through. *)
Lemma detect_objects_returns self w path text :
  res (exec lib (detect_objects path) self w) = inr text ->
  exists processor outputs sizes rs w1 w2 results model lines,
    lib _ (post_process_object_detection processor outputs sizes py_0_9) w1 = (inr rs, w2) /\
    answered (post_process_object_detection processor outputs sizes py_0_9) (inr rs)
      (exec lib (detect_objects path) self w) /\
    answered (DetrForObjectDetection_from_pretrained "facebook/detr-resnet-50")
      (inr model) (exec lib (detect_objects path) self w) /\
    rs !! 0%nat = Some results /\
    Forall2 (detection_line (id2label model)) (rows_of results) lines /\
    text = unlines lines.
Proof.
  intros Hret.
  destruct (detect_objects_run self w path)
    as [(e & He & _)
       |(image & processor & model & outputs & rs & w1 & Hlib & Hans & Hmodel & _ & _ & Hres)].
  - congruence.
  - rewrite Hres in Hret.
    apply then_inr in Hret as (results & Hget%getitem_inr & Hloop).
    apply detections_loop_inr in Hloop as (lines & Hlines & ->).
    exists processor, outputs, (torch_tensor [tuple_reversed (image_size image)]), rs, w1.
    eexists. exists results, model, lines.
    repeat split; [exact Hlib|exact Hans|exact Hmodel|exact Hget|exact Hlines].
Qed.

(** Once the image is opened and converted, a captioning run goes on to
    a third call. *)
Lemma get_image_caption_opened self w path im0 w0 im w1 :
  lib _ (Image_open path) w = (inr im0, w0) ->
  lib _ (Image_convert im0 "RGB") w0 = (inr im, w1) ->
  (3 <= length (trace (exec lib (get_image_caption path) self w)))%nat.
Proof.
  intros Ho Hc. unfold get_image_caption. cbv zeta.
  run_known (@exec_Bind_Call_inr) Ho. run_known (@exec_Bind_Call_inr) Hc.
  run_call (@exec_Bind_Call_inl) (@exec_Bind_Call_inr).
  - cbn [length]. lia.
  - match goal with
    | |- context [trace ?o] => generalize (trace o)
    end.
    intros t. cbn [length]. lia.
Qed.



Lemma glue_wrapper path p :
  In p (captioners path ++ detectors path) -> glue p.
Proof.
  intros [->%captioners_same| ->%detectors_same]%in_app_or.
  - apply glue_get_image_caption.
  - apply glue_detect_objects.
Qed.

End Runs.

(** ** Runs against the answers of the library *)

Section AnsweredRuns.
Context `{Platform} (lib : library).

(** Once post-processing has answered, what a detection function gives
    is what indexing the answer and the loop give, exception or text. *)
Lemma detect_objects_post_processed self w path model rs w' :
  detection_post_processed lib w path model rs w' ->
  res (exec lib (detect_objects path) self w) =
    (results <- getitem rs 0 ;;
     detections_loop (id2label model) "" (rows_of results))%result /\
  world_after (exec lib (detect_objects path) self w) = w'.
Proof.
  intros (image & w1 & processor & w2 & w3 & inputs & w4 & outputs & w5
          & (image0 & w0 & Ho & Hc) & Hp & Hm & Hi & Hout & Hpost).
  unfold detect_objects, rows_of. cbv zeta.
  run_known (@exec_Bind_Call_inr _ lib) Ho. run_known (@exec_Bind_Call_inr _ lib) Hc.
  run_known (@exec_Bind_Call_inr _ lib) Hp. run_known (@exec_Bind_Call_inr _ lib) Hm.
  run_known (@exec_Bind_Call_inr _ lib) Hi. run_known (@exec_Bind_Call_inr _ lib) Hout.
  run_known (@exec_Bind_Call_inr _ lib) Hpost.
  run_lift (@exec_Bind_lift_inl _ lib) (@exec_Bind_lift_inr _ lib).
  - split; reflexivity.
  - rewrite exec_lift. split; reflexivity.
Qed.

(** Once [generate] has answered, a captioning function raises the
    exception of [outputs[0]] or gives what [decode] answers on the
    first sequence. *)
Lemma get_image_caption_generated self w path processor inputs seqs w' :
  caption_generated lib w path processor inputs seqs w' ->
  (forall e, getitem seqs 0 = inl e ->
     res (exec lib (get_image_caption path) self w) = inl e /\
     world_after (exec lib (get_image_caption path) self w) = w') /\
  (forall first r w'', seqs !! 0%nat = Some first ->
     lib _ (BlipProcessor_decode processor first true) w' = (r, w'') ->
     res (exec lib (get_image_caption path) self w) = r /\
     world_after (exec lib (get_image_caption path) self w) = w'').
Proof.
  intros (image & w1 & w2 & model0 & w3 & model & w4 & inputs0 & w5 & w6
          & (image0 & w0 & Ho & Hc) & Hp & Hm & Hto & Hi & Hito & Hgen).
  unfold get_image_caption. cbv zeta.
  run_known (@exec_Bind_Call_inr _ lib) Ho. run_known (@exec_Bind_Call_inr _ lib) Hc.
  run_known (@exec_Bind_Call_inr _ lib) Hp. run_known (@exec_Bind_Call_inr _ lib) Hm.
  run_known (@exec_Bind_Call_inr _ lib) Hto. run_known (@exec_Bind_Call_inr _ lib) Hi.
  run_known (@exec_Bind_Call_inr _ lib) Hito. run_known (@exec_Bind_Call_inr _ lib) Hgen.
  split.
  - intros e He. run_lift_known (@exec_Bind_lift_inl _ lib) He. split; reflexivity.
  - intros first r w'' Hfirst Hdec.
    assert (Hget : getitem seqs 0 = inr first) by (unfold getitem; rewrite Hfirst; reflexivity).
    run_lift_known (@exec_Bind_lift_inr _ lib) Hget.
    destruct r as [e|caption].
    + run_known (@exec_Bind_Call_inl _ lib) Hdec. split; reflexivity.
    + run_known (@exec_Bind_Call_inr _ lib) Hdec. split; reflexivity.
Qed.



(** Why a captioning function raises: the last call it made failed, or
    [generate] answered with an empty batch and [outputs[0]] raised. *)
Lemma get_image_caption_raises self w path e :
  res (exec lib (get_image_caption path) self w) = inl e ->
  last (trace (exec lib (get_image_caption path) self w)) ≫= entry_failure = Some e \/
  (e = IndexError "index out of range" /\
   In [] (generated (trace (exec lib (get_image_caption path) self w)))).
Proof.
  unfold get_image_caption. cbv zeta.
  do 8 (run_call (@exec_Bind_Call_inl _ lib) (@exec_Bind_Call_inr _ lib);
        [intros [= <-]; left; reflexivity|]).
  run_lift (@exec_Bind_lift_inl _ lib) (@exec_Bind_lift_inr _ lib).
  { intros [= <-]. right.
    unfold getitem in E7. destruct x6 as [|first seqs]; cbn in E7; [|discriminate].
    injection E7 as <-. split; [reflexivity|]. cbn. left. reflexivity. }
  run_call (@exec_Bind_Call_inl _ lib) (@exec_Bind_Call_inr _ lib).
  - intros [= <-]. left. reflexivity.
  - cbn [exec res]. discriminate.
Qed.

End AnsweredRuns.

(** ** The properties of the specification *)

Section Claims.
Context `{Platform} (lib : library).

(** C1.  Whenever the detection wrapper ([ObjectDetectionTool._run] or
    [detect_objects]) returns a text, the text consists of the lines of the
    detections that the post-processing call, made with threshold [0.9],
    answered; under the contract of that call every one of these
    detections has a confidence [>= 0.9], and none has one [< 0.9]. *)
Theorem detections_meet_threshold (Hkeep : keeps_above_threshold lib)
    self w path p text :
  In p (detectors path) ->
  res (exec lib p self w) = inr text ->
  exists processor outputs sizes rs results model lines,
    answered (post_process_object_detection processor outputs sizes py_0_9) (inr rs)
      (exec lib p self w) /\
    answered (DetrForObjectDetection_from_pretrained "facebook/detr-resnet-50")
      (inr model) (exec lib p self w) /\
    rs !! 0%nat = Some results /\
    Forall2 (detection_line (id2label model)) (rows_of results) lines /\
    text = unlines lines /\
    Forall (fun row => float_ge (fst (fst row)) py_0_9 = true /\
                       float_lt (fst (fst row)) py_0_9 = false)
           (rows_of results).
Proof.
  intros ->%detectors_same Hret.
  apply detect_objects_returns in Hret
    as (processor & outputs & sizes & rs & w1 & w2 & results & model & lines
        & Hlib & Hans & Hmodel & Hget & Hlines & ->).
  exists processor, outputs, sizes, rs, results, model, lines.
  repeat split; try assumption.
  apply Hkeep in Hlib.
  assert (Hscores : Forall (fun s => float_gt s py_0_9 = true) (scores results)).
  { rewrite Forall_forall in Hlib. apply Hlib.
    eapply list_elem_of_lookup_2. exact Hget. }
  unfold rows_of.
  eapply Forall_impl; [apply zip3_scores; exact Hscores|].
  cbn. intros row Hgt. split; [apply float_gt_ge|apply float_gt_not_lt]; exact Hgt.
Qed.

(** C2.  Whenever the detection wrapper returns a text, the text is a
    sequence of newline-terminated lines, one for each row of the
    post-processed result and in that order, and the line of a row is
    "[x1, y1, x2, y2] label score": the four integers [int(box[0])] ..
    [int(box[3])] in decimal, the class name that the loaded model's
    [id2label] gives for the row's label, and the row's score printed as
    a float. *)
Theorem detection_lines_formatted self w path p text :
  In p (detectors path) ->
  res (exec lib p self w) = inr text ->
  exists processor outputs sizes rs results model lines,
    answered (post_process_object_detection processor outputs sizes py_0_9) (inr rs)
      (exec lib p self w) /\
    answered (DetrForObjectDetection_from_pretrained "facebook/detr-resnet-50")
      (inr model) (exec lib p self w) /\
    rs !! 0%nat = Some results /\
    text = unlines lines /\
    Forall2 (detection_line (id2label model)) (rows_of results) lines /\
    Forall formatted_line lines.
Proof.
  intros ->%detectors_same Hret.
  apply detect_objects_returns in Hret
    as (processor & outputs & sizes & rs & w1 & w2 & results & model & lines
        & _ & Hans & Hmodel & Hget & Hlines & ->).
  exists processor, outputs, sizes, rs, results, model, lines.
  repeat split; try assumption.
  clear Hans Hmodel Hget.
  induction Hlines as [|row line rows lines Hline _ IH]; constructor.
  - eapply detection_line_formatted. exact Hline.
  - exact IH.
Qed.

(** C3.  Calling [_arun] of either tool raises [NotImplementedError]
    ("This tool does not support async") for every argument, without
    calling a library and without touching the tool or the world; it never
    returns a value. *)
Theorem arun_not_supported self w query :
  let failed := {| res := inl (NotImplementedError "This tool does not support async");
                   self_after := self; world_after := w; trace := [] |} in
  exec lib (ImageCaptionTool._arun query) self w = failed /\
  exec lib (ObjectDetectionTool._arun query) self w = failed /\
  (forall v, res (exec lib (ImageCaptionTool._arun query) self w) <> inr v) /\
  (forall v, res (exec lib (ObjectDetectionTool._arun query) self w) <> inr v).
Proof.
  cbn. repeat split; discriminate.
Qed.

(** C6.  The lines of the text the detection wrapper returns are the
    detections of the post-processed result, row by row in the order in
    which the library returned them: the i-th line is the i-th row. *)
Theorem detections_in_model_order self w path p text :
  In p (detectors path) ->
  res (exec lib p self w) = inr text ->
  exists processor outputs sizes rs results model lines,
    answered (post_process_object_detection processor outputs sizes py_0_9) (inr rs)
      (exec lib p self w) /\
    answered (DetrForObjectDetection_from_pretrained "facebook/detr-resnet-50")
      (inr model) (exec lib p self w) /\
    rs !! 0%nat = Some results /\
    text = unlines lines /\
    length lines = length (rows_of results) /\
    forall i row, rows_of results !! i = Some row ->
      exists line, lines !! i = Some line /\ detection_line (id2label model) row line.
Proof.
  intros ->%detectors_same Hret.
  apply detect_objects_returns in Hret
    as (processor & outputs & sizes & rs & w1 & w2 & results & model & lines
        & _ & Hans & Hmodel & Hget & Hlines & ->).
  exists processor, outputs, sizes, rs, results, model, lines.
  repeat split; try assumption.
  - symmetry. eapply Forall2_length. exact Hlines.
  - intros i row Hrow.
    destruct (Forall2_lookup_l _ _ _ _ _ Hlines Hrow) as (line & Hline & Hdl).
    exists line. auto.
Qed.

(** C9.  When the library has answered the calls of the detection
    wrapper up to post-processing, and the first post-processed result
    holds no detection, the wrapper returns exactly the empty string;
    when it holds at least one, any text the wrapper returns ends in a
    newline, and the wrapper does return a text when every row can be
    printed. *)
Theorem detections_empty_or_newline_terminated
    self w path p model rs w' results :
  In p (detectors path) ->
  detection_post_processed lib w path model rs w' ->
  rs !! 0%nat = Some results ->
  (rows_of results = [] -> res (exec lib p self w) = inr "") /\
  (rows_of results <> [] ->
   (forall text, res (exec lib p self w) = inr text ->
      exists prefix, text = prefix +:+ newline) /\
   (Forall (printable (id2label model)) (rows_of results) ->
      exists text, res (exec lib p self w) = inr text)).
Proof.
  intros ->%detectors_same Hchain Hget.
  destruct (detect_objects_post_processed lib self w path model rs w' Hchain) as [Hres _].
  rewrite Hres. unfold getitem. rewrite Hget. cbn [then_].
  split.
  - intros ->. reflexivity.
  - intros Hne. split.
    + intros text Hloop.
      apply detections_loop_inr in Hloop as (lines & Hlines & ->).
      destruct (unlines_newline lines) as (prefix & Hp).
      * intros ->. apply Forall2_length in Hlines.
        destruct (rows_of results); [congruence|discriminate].
      * exists prefix. exact Hp.
    + intros Hrows. apply detections_loop_returns. exact Hrows.
Qed.

(** C10.  The tool methods and the helper functions are the same
    programs, so they behave alike in every world. *)
Theorem tool_methods_equal_helpers path :
  ImageCaptionTool._run path = get_image_caption path /\
  ObjectDetectionTool._run path = detect_objects path /\
  (forall self w,
     exec lib (ImageCaptionTool._run path) self w = exec lib (get_image_caption path) self w) /\
  (forall self w,
     exec lib (ObjectDetectionTool._run path) self w = exec lib (detect_objects path) self w).
Proof. repeat split. Qed.

(** C4.  The captioning wrapper ([ImageCaptionTool._run] or
    [get_image_caption]) asks [generate] for at most 20 new tokens and for
    nothing else; a caption it returns is the decoding of the first
    sequence that call produced, and under the contract of [generate]
    this sequence is at most 20 tokens longer than the prompt. *)
Theorem caption_within_token_budget prompt_length
    (Hgen : generates_within_budget lib prompt_length) self w path p :
  In p (captioners path) ->
  Forall (eq 20) (generation_budgets (trace (exec lib p self w))) /\
  forall caption, res (exec lib p self w) = inr caption ->
    exists processor model inputs seqs first,
      answered (BlipModel_generate model inputs 20) (inr seqs) (exec lib p self w) /\
      seqs !! 0%nat = Some first /\
      answered (BlipProcessor_decode processor first true) (inr caption)
        (exec lib p self w) /\
      (length first <= prompt_length inputs + 20)%nat.
Proof.
  intros ->%captioners_same.
  destruct (get_image_caption_run lib self w path) as [Hbudget Hrun].
  split; [exact Hbudget|].
  intros caption Hret.
  destruct Hrun as [(e & He & _)|(processor & model & inputs & seqs & first & caption'
                                   & w1 & w2 & Hlib & Hfirst & Hg & Hd & _ & Hres)].
  - congruence.
  - assert (caption' = caption) as -> by congruence.
    exists processor, model, inputs, seqs, first.
    repeat split; try assumption.
    apply Hgen in Hlib. rewrite Forall_forall in Hlib.
    apply (Hlib first). eapply list_elem_of_lookup_2. exact Hfirst.
Qed.

(** C5 (amended).  For a path that opens as an RGB image: when the
    library answers the calls up to [generate] with values, the
    captioning wrapper raises [IndexError] if the batch generated is
    empty, and otherwise gives exactly what [decode] answers for the
    first sequence of the batch: the caption, which may be the empty
    string, or the exception of [decode]; under the contract of
    [generate] that sequence is at most 20 tokens longer than the prompt
    of the inputs.  And whenever the wrapper raises, the exception is
    that of the last call it made, a call after the image was opened and
    converted, or the [IndexError] of an empty batch. *)
Theorem caption_of_valid_image prompt_length
    (Hgen : generates_within_budget lib prompt_length) self w path p :
  In p (captioners path) ->
  opens_as_RGB lib w path ->
  (forall processor inputs seqs w1,
     caption_generated lib w path processor inputs seqs w1 ->
     (seqs !! 0%nat = None ->
      res (exec lib p self w) = inl (IndexError "index out of range")) /\
     (forall first, seqs !! 0%nat = Some first ->
        (length first <= prompt_length inputs + 20)%nat /\
        forall r w2,
          lib _ (BlipProcessor_decode processor first true) w1 = (r, w2) ->
          res (exec lib p self w) = r /\ world_after (exec lib p self w) = w2)) /\
  (forall e, res (exec lib p self w) = inl e ->
     (3 <= length (trace (exec lib p self w)))%nat /\
     (last (trace (exec lib p self w)) ≫= entry_failure = Some e \/
      (e = IndexError "index out of range" /\
       In [] (generated (trace (exec lib p self w)))))).
Proof.
  intros ->%captioners_same (im0 & w0 & im & w1 & Ho & Hc).
  split.
  - intros processor inputs seqs w1' Hchain.
    destruct (get_image_caption_generated lib self w path _ _ _ _ Hchain) as [Hempty Hfirst].
    split.
    + intros Hnone. apply Hempty. unfold getitem. rewrite Hnone. reflexivity.
    + intros first Hsome. split.
      * destruct Hchain as (image & ? & ? & ? & ? & model & ? & ? & ? & w6
                            & _ & _ & _ & _ & _ & _ & Hlib).
        apply Hgen in Hlib. rewrite Forall_forall in Hlib.
        apply (Hlib first). eapply list_elem_of_lookup_2. exact Hsome.
      * intros r w2 Hdec. apply (Hfirst first r w2 Hsome Hdec).
  - intros e He. split.
    + apply (get_image_caption_opened lib self w path _ _ _ _ Ho Hc).
    + apply get_image_caption_raises. exact He.
Qed.


(** C8.  A run of [_run] (or of the helper) leaves the tool object as it
    was and does not depend on it: started in the same world with any
    other tool object it makes the same calls and gives the same outcome.
    Nothing is kept from one call to the next: every run that returns has
    loaded its processor and its model from the checkpoint again, and a
    call made after another behaves as it does on its own in the world
    the first call left.  So the outcome is determined by the path given
    and the world outside the notebook. *)
Theorem run_is_stateless self w path p :
  In p (captioners path ++ detectors path) ->
  self_after (exec lib p self w) = self /\
  (forall self',
     res (exec lib p self' w) = res (exec lib p self w) /\
     world_after (exec lib p self' w) = world_after (exec lib p self w) /\
     trace (exec lib p self' w) = trace (exec lib p self w)) /\
  (forall text, res (exec lib p self w) = inr text ->
     (In p (captioners path) ->
      pretrained_loads (trace (exec lib p self w)) =
        ["Salesforce/blip-image-captioning-large";
         "Salesforce/blip-image-captioning-large"]) /\
     (In p (detectors path) ->
      pretrained_loads (trace (exec lib p self w)) =
        ["facebook/detr-resnet-50"; "facebook/detr-resnet-50"])) /\
  (forall path' p' text,
     In p' (captioners path' ++ detectors path') ->
     res (exec lib p self w) = inr text ->
     let next := exec lib p' self (world_after (exec lib p self w)) in
     res (exec lib (Bind p (fun _ => p')) self w) = res next /\
     self_after (exec lib (Bind p (fun _ => p')) self w) = self /\
     world_after (exec lib (Bind p (fun _ => p')) self w) = world_after next /\
     trace (exec lib (Bind p (fun _ => p')) self w) = trace (exec lib p self w) ++ trace next).
Proof.
  intros Hp. pose proof (glue_wrapper path p Hp) as Hglue.
  split; [apply glue_self_after; exact Hglue|].
  split; [intros self'; apply glue_self_irrelevant; exact Hglue|].
  split; [intros text Hret; split|].
  - intros ->%captioners_same.
    destruct (get_image_caption_run lib self w path) as [_ [(e & He & _)|Hrun]];
      [congruence|].
    destruct Hrun as (? & ? & ? & ? & ? & ? & ? & ? & _ & _ & _ & _ & Hloads & _).
    exact Hloads.
  - intros ->%detectors_same.
    destruct (detect_objects_run lib self w path) as [(e & He & _)|Hrun];
      [congruence|].
    destruct Hrun as (? & ? & ? & ? & ? & ? & _ & _ & _ & _ & Hloads & _).
    exact Hloads.
  - intros path' p' text Hp' Hret.
    pose proof (glue_self_after lib p Hglue self w) as Hself.
    pose proof (glue_self_after lib p' (glue_wrapper path' p' Hp') self
                  (world_after (exec lib p self w))) as Hself'.
    cbv zeta. cbn [exec].
    destruct (exec lib p self w) as [r self1 w1 t1].
    cbn in Hret, Hself, Hself' |- *. subst r self1.
    destruct (exec lib p' self w1) as [r2 self2 w2 t2].
    cbn in Hself' |- *. auto.
Qed.

End Claims.

(** ** The properties on the concrete library *)

#[local] Existing Instance Toy.platform.

Lemma toy_keeps_above_threshold : keeps_above_threshold Toy.lib.
Proof.
  intros p outputs sizes threshold w rs w' E. cbn in E. injection E as <- _.
  unfold Toy.post_process. constructor; [|constructor]. cbn [scores].
  apply Forall_map. apply Forall_forall. intros q Hq.
  apply list_elem_of_filter in Hq as [Hq _]. exact Hq.
Qed.

Lemma toy_generates_within_budget : generates_within_budget Toy.lib (fun _ => 1%nat).
Proof.
  intros m inputs n w seqs w' E. cbn in E. injection E as <- _.
  unfold Toy.generate. constructor; [|constructor]. cbn [length].
  rewrite length_take. lia.
Qed.

Lemma toy_traffic_opens : opens_as_RGB Toy.lib Toy.home "traffic.jpg".
Proof. exists Toy.traffic, Toy.home, Toy.traffic, Toy.home. split; reflexivity. Qed.

Lemma toy_blank_opens : opens_as_RGB Toy.lib Toy.home "blank.png".
Proof. exists Toy.blank, Toy.home, Toy.blank, Toy.home. split; reflexivity. Qed.

(** The text [detect_objects] returns for the traffic picture. *)
Example detect_traffic :
  res (exec Toy.lib (detect_objects "traffic.jpg") ObjectDetectionTool.new Toy.home) =
  inr ("[13, 52, 310, 269] car 4278419646001971p-52" +:+ newline +:+
       "[400, 12, 431, 88] traffic light 4494592428115755p-52" +:+ newline).
Proof. vm_compute. reflexivity. Qed.

Example caption_traffic :
  res (exec Toy.lib (get_image_caption "traffic.jpg") ImageCaptionTool.new Toy.home) =
  inr "a car on a street".
Proof. vm_compute. reflexivity. Qed.

Example detect_blank :
  res (exec Toy.lib (detect_objects "blank.png") ObjectDetectionTool.new Toy.home) = inr "".
Proof. vm_compute. reflexivity. Qed.

Example detect_blank_answered :
  answered (@post_process_object_detection Toy.platform tt Toy.blank [[8; 8]] py_0_9)
    (inr [ {| scores := []; labels := []; boxes := [] |} ])
    (exec Toy.lib (detect_objects "blank.png") ObjectDetectionTool.new Toy.home).
Proof. unfold answered. vm_compute. do 6 right. left. reflexivity. Qed.

Lemma toy_traffic_post_processed :
  detection_post_processed Toy.lib Toy.home "traffic.jpg" tt
    (Toy.post_process Toy.traffic py_0_9)
    {| Toy.disk := Toy.disk Toy.home; Toy.hub_reachable := true;
       Toy.cuda_available := true; Toy.loaded := 2 |}.
Proof.
  exists Toy.traffic, Toy.home, tt. do 2 eexists. exists Toy.traffic. eexists.
  exists Toy.traffic. eexists.
  split; [exists Toy.traffic, Toy.home; split; reflexivity|].
  repeat split; reflexivity.
Qed.

Lemma toy_blank_post_processed :
  detection_post_processed Toy.lib Toy.home "blank.png" tt
    (Toy.post_process Toy.blank py_0_9)
    {| Toy.disk := Toy.disk Toy.home; Toy.hub_reachable := true;
       Toy.cuda_available := true; Toy.loaded := 2 |}.
Proof.
  exists Toy.blank, Toy.home, tt. do 2 eexists. exists Toy.blank. eexists.
  exists Toy.blank. eexists.
  split; [exists Toy.blank, Toy.home; split; reflexivity|].
  repeat split; reflexivity.
Qed.


Lemma toy_blank_generated :
  caption_generated Toy.lib Toy.home "blank.png" tt Toy.blank
    (Toy.generate Toy.blank 20)
    {| Toy.disk := Toy.disk Toy.home; Toy.hub_reachable := true;
       Toy.cuda_available := true; Toy.loaded := 2 |}.
Proof.
  exists Toy.blank, Toy.home. eexists. exists tt. eexists. exists tt. eexists.
  exists Toy.blank. do 2 eexists.
  split; [exists Toy.blank, Toy.home; split; reflexivity|].
  repeat split; reflexivity.
Qed.

Lemma detections_meet_threshold_witness :
  exists processor outputs sizes rs results model lines,
    answered (post_process_object_detection processor outputs sizes py_0_9) (inr rs)
      (exec Toy.lib (detect_objects "traffic.jpg") ObjectDetectionTool.new Toy.home) /\
    answered (DetrForObjectDetection_from_pretrained "facebook/detr-resnet-50")
      (inr model)
      (exec Toy.lib (detect_objects "traffic.jpg") ObjectDetectionTool.new Toy.home) /\
    rs !! 0%nat = Some results /\
    Forall2 (detection_line (id2label model)) (rows_of results) lines /\
    "[13, 52, 310, 269] car 4278419646001971p-52" +:+ newline +:+
    "[400, 12, 431, 88] traffic light 4494592428115755p-52" +:+ newline = unlines lines /\
    Forall (fun row => float_ge (fst (fst row)) py_0_9 = true /\
                       float_lt (fst (fst row)) py_0_9 = false)
           (rows_of results).
Proof.
  apply (detections_meet_threshold Toy.lib toy_keeps_above_threshold
           ObjectDetectionTool.new Toy.home "traffic.jpg" (detect_objects "traffic.jpg")).
  - right. left. reflexivity.
  - vm_compute. reflexivity.
Defined.

Lemma detection_lines_formatted_witness :
  exists processor outputs sizes rs results model lines,
    answered (post_process_object_detection processor outputs sizes py_0_9) (inr rs)
      (exec Toy.lib (ObjectDetectionTool._run "traffic.jpg")
         ObjectDetectionTool.new Toy.home) /\
    answered (DetrForObjectDetection_from_pretrained "facebook/detr-resnet-50")
      (inr model)
      (exec Toy.lib (ObjectDetectionTool._run "traffic.jpg")
         ObjectDetectionTool.new Toy.home) /\
    rs !! 0%nat = Some results /\
    "[13, 52, 310, 269] car 4278419646001971p-52" +:+ newline +:+
    "[400, 12, 431, 88] traffic light 4494592428115755p-52" +:+ newline = unlines lines /\
    Forall2 (detection_line (id2label model)) (rows_of results) lines /\
    Forall formatted_line lines.
Proof.
  refine (detection_lines_formatted Toy.lib
            ObjectDetectionTool.new Toy.home "traffic.jpg"
            (ObjectDetectionTool._run "traffic.jpg") _ _ _).
  - left. reflexivity.
  - vm_compute. reflexivity.
Defined.

Lemma detections_in_model_order_witness :
  exists processor outputs sizes rs results model lines,
    answered (post_process_object_detection processor outputs sizes py_0_9) (inr rs)
      (exec Toy.lib (detect_objects "traffic.jpg") ObjectDetectionTool.new Toy.home) /\
    answered (DetrForObjectDetection_from_pretrained "facebook/detr-resnet-50")
      (inr model)
      (exec Toy.lib (detect_objects "traffic.jpg") ObjectDetectionTool.new Toy.home) /\
    rs !! 0%nat = Some results /\
    "[13, 52, 310, 269] car 4278419646001971p-52" +:+ newline +:+
    "[400, 12, 431, 88] traffic light 4494592428115755p-52" +:+ newline = unlines lines /\
    length lines = length (rows_of results) /\
    forall i row, rows_of results !! i = Some row ->
      exists line, lines !! i = Some line /\ detection_line (id2label model) row line.
Proof.
  apply (detections_in_model_order Toy.lib
           ObjectDetectionTool.new Toy.home "traffic.jpg" (detect_objects "traffic.jpg")).
  - right. left. reflexivity.
  - vm_compute. reflexivity.
Defined.

Lemma detections_empty_or_newline_terminated_witness :
  res (exec Toy.lib (detect_objects "blank.png") ObjectDetectionTool.new Toy.home) = inr "" /\
  (forall text,
     res (exec Toy.lib (detect_objects "traffic.jpg") ObjectDetectionTool.new Toy.home)
       = inr text ->
     exists prefix, text = prefix +:+ newline).
Proof.
  split.
  - refine (proj1 (detections_empty_or_newline_terminated Toy.lib
                     ObjectDetectionTool.new Toy.home "blank.png" (detect_objects "blank.png")
                     tt _ _ {| scores := []; labels := []; boxes := [] |}
                     _ toy_blank_post_processed _) _).
    + right. left. reflexivity.
    + reflexivity.
    + reflexivity.
  - refine (proj1 (proj2 (detections_empty_or_newline_terminated Toy.lib
                     ObjectDetectionTool.new Toy.home "traffic.jpg"
                     (detect_objects "traffic.jpg")
                     tt _ _
                     {| scores := [Toy.f_0_95; Toy.f_0_998];
                        labels := [3; 10];
                        boxes := [ [Toy.f_13_75; Toy.f_of_Z 52; Toy.f_of_Z 310; Toy.f_of_Z 269];
                                   [Toy.f_of_Z 400; Toy.f_of_Z 12; Toy.f_of_Z 431;
                                    Toy.f_of_Z 88] ] |}
                     _ toy_traffic_post_processed _) _)).
    + right. left. reflexivity.
    + vm_compute. reflexivity.
    + discriminate.
Defined.

Lemma caption_within_token_budget_witness :
  exists processor model inputs seqs first,
    answered (BlipModel_generate model inputs 20) (inr seqs)
      (exec Toy.lib (get_image_caption "traffic.jpg") ImageCaptionTool.new Toy.home) /\
    seqs !! 0%nat = Some first /\
    answered (BlipProcessor_decode processor first true) (inr "a car on a street")
      (exec Toy.lib (get_image_caption "traffic.jpg") ImageCaptionTool.new Toy.home) /\
    (length first <= 1 + 20)%nat.
Proof.
  apply (caption_within_token_budget Toy.lib (fun _ => 1%nat) toy_generates_within_budget
           ImageCaptionTool.new Toy.home "traffic.jpg" (get_image_caption "traffic.jpg")).
  - right. left. reflexivity.
  - vm_compute. reflexivity.
Defined.

(** C5, as stated, fails.  The blank picture opens as an RGB image, the
    library honours the token budget, and the caption returned is the
    empty string.  And on a machine without a GPU the traffic picture
    opens as an RGB image, yet the wrapper, which asks for the device
    "cuda", raises instead of returning a string. *)
Lemma caption_may_be_empty_or_missing :
  opens_as_RGB Toy.lib Toy.home "blank.png" /\
  generates_within_budget Toy.lib (fun _ => 1%nat) /\
  res (exec Toy.lib (ImageCaptionTool._run "blank.png") ImageCaptionTool.new Toy.home)
    = inr "" /\
  ~ (exists caption,
       res (exec Toy.lib (ImageCaptionTool._run "blank.png") ImageCaptionTool.new Toy.home)
         = inr caption /\ caption <> "") /\
  opens_as_RGB Toy.lib Toy.laptop "traffic.jpg" /\
  res (exec Toy.lib (ImageCaptionTool._run "traffic.jpg") ImageCaptionTool.new Toy.laptop)
    = inl (Exception "AssertionError" "Torch not compiled with CUDA enabled").
Proof.
  split; [exact toy_blank_opens|].
  split; [exact toy_generates_within_budget|].
  split; [vm_compute; reflexivity|].
  split.
  { intros (caption & Hres & Hne). vm_compute in Hres. congruence. }
  split; [|vm_compute; reflexivity].
  exists Toy.traffic, Toy.laptop, Toy.traffic, Toy.laptop. split; reflexivity.
Qed.

Lemma caption_of_valid_image_witness :
  res (exec Toy.lib (ImageCaptionTool._run "blank.png") ImageCaptionTool.new Toy.home)
    = inr "" /\
  world_after (exec Toy.lib (ImageCaptionTool._run "blank.png") ImageCaptionTool.new Toy.home)
    = {| Toy.disk := Toy.disk Toy.home; Toy.hub_reachable := true;
         Toy.cuda_available := true; Toy.loaded := 2 |}.
Proof.
  destruct (caption_of_valid_image Toy.lib (fun _ => 1%nat) toy_generates_within_budget
              ImageCaptionTool.new Toy.home "blank.png" (ImageCaptionTool._run "blank.png"))
    as [Hret _].
  - left. reflexivity.
  - exact toy_blank_opens.
  - destruct (Hret tt Toy.blank _ _ toy_blank_generated) as [_ Hfirst].
    destruct (Hfirst [Toy.bos; Toy.eos] eq_refl) as [_ Hdec].
    apply (Hdec (inr "")). reflexivity.
Defined.


Lemma run_is_stateless_witness :
  self_after (exec Toy.lib (ImageCaptionTool._run "traffic.jpg") ImageCaptionTool.new Toy.home)
    = ImageCaptionTool.new.
Proof.
  refine (proj1 (run_is_stateless Toy.lib ImageCaptionTool.new Toy.home "traffic.jpg"
                   (ImageCaptionTool._run "traffic.jpg") _)).
  left. reflexivity.
Defined.

(** *** What the other statements would do *)

(** A body with try/except can swallow the failure of a call, so
    [uncaught] is not a property of every program. *)
Example try_catches :
  res (exec Toy.lib (Toy.open_or_default "nope.png") ImageCaptionTool.new Toy.home)
    = inr "no image" /\
  ~ uncaught (exec Toy.lib (Toy.open_or_default "nope.png") ImageCaptionTool.new Toy.home).
Proof.
  split; [reflexivity|].
  intros Hun.
  destruct (Hun [] (Entry (Image_open "nope.png")
                      (inl (Exception "FileNotFoundError" "nope.png"))) []
              (Exception "FileNotFoundError" "nope.png") eq_refl eq_refl) as [_ Hres].
  discriminate Hres.
Qed.

(** A body that assigns to a field changes the tool object. *)
Example setattr_changes_tool :
  self_after (exec Toy.lib (Toy.rename "Captioner") ImageCaptionTool.new Toy.home)
    = {| name := "Captioner"; description := "Generate captions for images" |}.
Proof. reflexivity. Qed.

(** *** Failures seen by the caller *)

Example download_failure_propagates :
  res (exec Toy.lib (ImageCaptionTool._run "traffic.jpg") ImageCaptionTool.new Toy.offline)
    = inl (Exception "OSError" "cannot load the checkpoint") /\
  res (exec Toy.lib (ObjectDetectionTool._run "traffic.jpg") ObjectDetectionTool.new
         Toy.offline)
    = inl (Exception "OSError" "cannot load the checkpoint").
Proof. split; vm_compute; reflexivity. Qed.

(** *** Two calls in a row *)

(** Each of two calls loads its two checkpoints; the tool is the same
    object afterwards. *)
Example two_calls_reload :
  let twice := (_ <- ImageCaptionTool._run "traffic.jpg" ;;
                ImageCaptionTool._run "traffic.jpg")%prog in
  let o := exec Toy.lib twice ImageCaptionTool.new Toy.home in
  res o = inr "a car on a street" /\
  Toy.loaded (world_after o) = 4%nat /\
  length (pretrained_loads (trace o)) = 4%nat /\
  self_after o = ImageCaptionTool.new.
Proof. vm_compute. repeat split. Qed.

(** ** Further properties of the code *)

(** *** Coordinates and rows *)

(** X5.  [int] of a finite float is the integer part of its value: it has the
    sign of the float and its magnitude [q] satisfies [q <= |x| < q + 1]
    (stated for [m * 2^e] with the power cleared when [e < 0]). *)
Theorem int_truncates_toward_zero (s : bool) (m : positive) (e : Z) :
  exists z, int (S754_finite s m e) = inr z /\
    (if s then z <= 0 else 0 <= z) /\
    (0 <= e -> Z.abs z = Z.pos m * 2 ^ e) /\
    (e < 0 -> Z.abs z * 2 ^ (- e) <= Z.pos m < (Z.abs z + 1) * 2 ^ (- e)).
Proof.
  unfold int.
  destruct (0 <=? e) eqn:He.
  - apply Z.leb_le in He.
    assert (0 < 2 ^ e) by (apply Z.pow_pos_nonneg; lia).
    assert (0 < Z.pos m * 2 ^ e) by nia.
    eexists. split; [reflexivity|].
    destruct s; repeat split; intros; lia.
  - apply Z.leb_gt in He.
    assert (Hp : 0 < 2 ^ (- e)) by (apply Z.pow_pos_nonneg; lia).
    pose proof (Z.div_mod (Z.pos m) (2 ^ (- e)) ltac:(lia)) as Hdm.
    pose proof (Z.mod_pos_bound (Z.pos m) (2 ^ (- e)) Hp) as Hmod.
    assert (Hq : 0 <= Z.pos m / 2 ^ (- e)) by (apply Z.div_pos; lia).
    eexists. split; [reflexivity|].
    destruct s; repeat split; intros; try lia; nia.
Qed.

Section MoreLoop.
Context `{Platform}.

(** X4.  The coordinates of a box are converted from left to right: the first
    of the four that is missing or cannot be converted decides the
    exception, [IndexError] for a box that is too short, [ValueError] for
    a NaN and [OverflowError] for an infinity. *)
Theorem format_box_first_bad_coordinate (box : list spec_float) (i : nat) :
  (i < 4)%nat ->
  (forall j, (j < i)%nat -> exists b x, box !! j = Some b /\ int b = inr x) ->
  (box !! i = None -> format_box box = inl (IndexError "index out of range")) /\
  (box !! i = Some S754_nan ->
   format_box box = inl (ValueError "cannot convert float NaN to integer")) /\
  (forall s, box !! i = Some (S754_infinity s) ->
   format_box box = inl (OverflowError "cannot convert float infinity to integer")).
Proof.
  intros Hi Hbefore.
  assert (Hgen : forall r, then_ (getitem box i) int = inl r -> format_box box = inl r).
  { intros r Hr. unfold format_box.
    destruct i as [|[|[|[|i]]]]; [| | | |lia].
    - destruct (getitem box 0) as [e0|b]; cbn [then_] in Hr |- *; [congruence|].
      rewrite Hr. reflexivity.
    - destruct (Hbefore 0%nat) as (b0 & x0 & Hb0 & Hx0); [lia|].
      unfold getitem at 1. rewrite Hb0. cbn [then_]. rewrite Hx0. cbn [then_].
      destruct (getitem box 1) as [e0|b]; cbn [then_] in Hr |- *; [congruence|].
      rewrite Hr. reflexivity.
    - destruct (Hbefore 0%nat) as (b0 & x0 & Hb0 & Hx0); [lia|].
      destruct (Hbefore 1%nat) as (b1 & x1 & Hb1 & Hx1); [lia|].
      unfold getitem at 1. rewrite Hb0. cbn [then_]. rewrite Hx0. cbn [then_].
      unfold getitem at 1. rewrite Hb1. cbn [then_]. rewrite Hx1. cbn [then_].
      destruct (getitem box 2) as [e0|b]; cbn [then_] in Hr |- *; [congruence|].
      rewrite Hr. reflexivity.
    - destruct (Hbefore 0%nat) as (b0 & x0 & Hb0 & Hx0); [lia|].
      destruct (Hbefore 1%nat) as (b1 & x1 & Hb1 & Hx1); [lia|].
      destruct (Hbefore 2%nat) as (b2 & x2 & Hb2 & Hx2); [lia|].
      unfold getitem at 1. rewrite Hb0. cbn [then_]. rewrite Hx0. cbn [then_].
      unfold getitem at 1. rewrite Hb1. cbn [then_]. rewrite Hx1. cbn [then_].
      unfold getitem at 1. rewrite Hb2. cbn [then_]. rewrite Hx2. cbn [then_].
      destruct (getitem box 3) as [e0|b]; cbn [then_] in Hr |- *; [congruence|].
      rewrite Hr. reflexivity. }
  repeat split.
  - intros Hnone. apply Hgen. unfold getitem. rewrite Hnone. reflexivity.
  - intros Hsome. apply Hgen. unfold getitem. rewrite Hsome. reflexivity.
  - intros s Hsome. apply Hgen. unfold getitem. rewrite Hsome. reflexivity.
Qed.

(** *** The loop over the rows *)

Lemma detections_loop_split labels_of rows1 rows2 : forall detections,
  detections_loop labels_of detections (rows1 ++ rows2) =
  (text <- detections_loop labels_of detections rows1 ;;
   detections_loop labels_of text rows2)%result.
Proof.
  induction rows1 as [|[[score label] box] rows1 IH]; intros detections.
  - reflexivity.
  - cbn [app detections_loop].
    destruct (format_box box) as [e|coords]; cbn [then_]; [reflexivity|].
    destruct (dict_getitem labels_of label) as [e|class_name]; cbn [then_]; [reflexivity|].
    apply IH.
Qed.

(** X6.  The loop over the rows of two results put end to end is the loop
    over the first, continued on the second with the text reached; a
    failure in the first part is the failure of the whole, and a text
    returned for the whole extends the text returned for the first
    part. *)
Theorem detections_loop_app labels_of rows1 rows2 detections :
  detections_loop labels_of detections (rows1 ++ rows2) =
    (text <- detections_loop labels_of detections rows1 ;;
     detections_loop labels_of text rows2)%result /\
  (forall e, detections_loop labels_of detections rows1 = inl e ->
     detections_loop labels_of detections (rows1 ++ rows2) = inl e) /\
  (forall whole, detections_loop labels_of detections (rows1 ++ rows2) = inr whole ->
     exists text more,
       detections_loop labels_of detections rows1 = inr text /\
       whole = text +:+ more).
Proof.
  split; [apply detections_loop_split|]. split.
  - intros e He. rewrite detections_loop_split, He. reflexivity.
  - intros whole Hwhole. rewrite detections_loop_split in Hwhole.
    apply then_inr in Hwhole as (text & Htext & Hrest).
    apply detections_loop_inr in Hrest as (lines & _ & ->).
    exists text, (unlines lines). split; [exact Htext|reflexivity].
Qed.

Lemma detection_line_printable labels_of row line :
  detection_line labels_of row line -> printable labels_of row.
Proof.
  destruct row as [[score label] box].
  intros (x1 & y1 & x2 & y2 & b0 & b1 & b2 & b3 & class_name
          & Hb0 & Hx1 & Hb1 & Hy1 & Hb2 & Hx2 & Hb3 & Hy2 & Hlabel & _).
  split; [|exists class_name; exact Hlabel].
  intros i Hi. destruct i as [|[|[|[|i]]]]; [eauto|eauto|eauto|eauto|lia].
Qed.

(** The loop is all or nothing: it returns a text exactly when every row
    can be printed; one bad row and no text comes back. *)
Theorem detections_loop_returns_iff labels_of rows detections :
  (exists text, detections_loop labels_of detections rows = inr text) <->
  Forall (printable labels_of) rows.
Proof.
  split.
  - intros (text & Hloop).
    apply detections_loop_inr in Hloop as (lines & Hlines & _).
    induction Hlines as [|row line rows lines Hline _ IH]; constructor.
    + eapply detection_line_printable. exact Hline.
    + exact IH.
  - intros Hrows. apply detections_loop_returns. exact Hrows.
Qed.

(** The first row that cannot be printed decides the exception: that of
    its box, or else [KeyError] with its label. *)
Lemma detections_loop_first_bad labels_of good score label box rest detections :
  Forall (printable labels_of) good ->
  (forall e, format_box box = inl e ->
     detections_loop labels_of detections (good ++ (score, label, box) :: rest) = inl e) /\
  ((exists coords, format_box box = inr coords) ->
   labels_of !! label = None ->
   detections_loop labels_of detections (good ++ (score, label, box) :: rest)
     = inl (KeyError label)).
Proof.
  intros Hgood. rewrite detections_loop_split.
  destruct (detections_loop_returns labels_of good Hgood detections) as (text & ->).
  cbn [then_ detections_loop]. split.
  - intros e ->. reflexivity.
  - intros (coords & ->) Hnone. cbn [then_].
    unfold dict_getitem. rewrite Hnone. reflexivity.
Qed.

(** [zip] stops at the shortest of the three tensors. *)
Lemma zip3_length {A B C} (a : list A) (b : list B) (c : list C) :
  length (zip3 a b c) = (length a `min` (length b `min` length c))%nat.
Proof.
  revert b c. induction a as [|x a IH]; intros [|y b] [|z c]; cbn; try reflexivity.
  rewrite IH. reflexivity.
Qed.

(** *** Newlines *)

Lemma count_newlines_app (a b : string) :
  count_newlines (a +:+ b) = (count_newlines a + count_newlines b)%nat.
Proof.
  induction a as [|ch a IH]; [reflexivity|].
  rewrite append_cons. cbn [count_newlines]. rewrite IH. lia.
Qed.

Lemma pretty_N_char_not_newline (n : N) :
  Ascii.eqb (pretty_N_char n) "010"%char = false.
Proof. unfold pretty_N_char. repeat case_match; reflexivity. Qed.

Lemma count_newlines_pretty_N_go (x : N) : forall s,
  count_newlines (pretty_N_go x s) = count_newlines s.
Proof.
  induction (N.lt_wf_0 x) as [x _ IH]. intros s.
  destruct (decide (x = 0%N)) as [->|Hx].
  - rewrite pretty_N_go_0. reflexivity.
  - rewrite pretty_N_go_step by lia.
    rewrite IH by (apply N.div_lt; lia).
    cbn [count_newlines]. rewrite pretty_N_char_not_newline. reflexivity.
Qed.

Lemma count_newlines_pretty_N (x : N) : count_newlines (pretty x) = 0%nat.
Proof.
  unfold pretty, pretty_N. case_decide; [reflexivity|].
  apply count_newlines_pretty_N_go.
Qed.

Lemma count_newlines_pretty_Z (x : Z) : count_newlines (pretty x) = 0%nat.
Proof.
  unfold pretty, pretty_Z. destruct x as [|p|p].
  - reflexivity.
  - exact (count_newlines_pretty_N (N.pos p)).
  - rewrite count_newlines_app.
    change (count_newlines "-" + count_newlines (pretty (N.pos p)) = 0)%nat.
    rewrite count_newlines_pretty_N. reflexivity.
Qed.

Lemma count_newlines_unlines lines :
  Forall (fun line => count_newlines line = 0%nat) lines ->
  count_newlines (unlines lines) = length lines.
Proof.
  induction 1 as [|line lines Hline _ IH]; [reflexivity|].
  cbn [unlines fold_right length]. fold (unlines lines).
  rewrite !count_newlines_app, Hline, IH. reflexivity.
Qed.

Lemma count_newlines_detection_line labels_of row line :
  (forall x, count_newlines (float_str x) = 0%nat) ->
  (forall k v, labels_of !! k = Some v -> count_newlines v = 0%nat) ->
  detection_line labels_of row line -> count_newlines line = 0%nat.
Proof.
  intros Hfloat Hlabels. destruct row as [[score label] box].
  intros (x1 & y1 & x2 & y2 & b0 & b1 & b2 & b3 & class_name
          & _ & _ & _ & _ & _ & _ & _ & _ & Hlabel & ->).
  rewrite !count_newlines_app, !count_newlines_pretty_Z, Hfloat, (Hlabels _ _ Hlabel).
  reflexivity.
Qed.

End MoreLoop.

(** *** The calls of a run *)

Section MoreRuns.
Context `{Platform} (lib : library).

Lemma detect_objects_log self w path :
  let t := trace (exec lib (detect_objects path) self w) in
  devices_requested t = [] /\
  (length t <= 7)%nat /\
  (forall sizes, In sizes (post_process_sizes t) ->
     exists im, In im (converted_images t) /\
                sizes = [[snd (image_size im); fst (image_size im)]]).
Proof.
  unfold detect_objects. cbv zeta.
  do 7 (run_call (@exec_Bind_Call_inl _ lib) (@exec_Bind_Call_inr _ lib);
        [split; [reflexivity|split; [cbn [length]; lia|]];
         cbn; intros sizes Hin;
         first [destruct Hin as [<-|[]]; eexists; split; [left; reflexivity|reflexivity]
               |destruct Hin]|]).
  run_lift (@exec_Bind_lift_inl _ lib) (@exec_Bind_lift_inr _ lib);
    [|rewrite exec_lift; cbn [trace]];
    (split; [reflexivity|split; [cbn [length]; lia|]];
     cbn; intros sizes Hin;
     destruct Hin as [<-|[]]; eexists; split; [left; reflexivity|reflexivity]).
Qed.

Lemma get_image_caption_log self w path :
  let o := exec lib (get_image_caption path) self w in
  let t := trace o in
  Forall (eq "cuda") (devices_requested t) /\
  Forall (fun d => snd d = true) (decode_requests t) /\
  (length (generation_budgets t) <= 1)%nat /\
  (length (decode_requests t) <= 1)%nat /\
  (length t <= 9)%nat /\
  (In [] (generated t) ->
   res o = inl (IndexError "index out of range") /\ decode_requests t = []) /\
  (forall d, In d (decode_requests t) ->
     exists seqs, In seqs (generated t) /\ seqs !! 0%nat = Some (fst d)).
Proof.
  unfold get_image_caption. cbv zeta.
  do 8 (run_call (@exec_Bind_Call_inl _ lib) (@exec_Bind_Call_inr _ lib);
        [split; [cbn; repeat constructor|];
         split; [cbn; repeat constructor|];
         split; [cbn; lia|];
         split; [cbn; lia|];
         split; [cbn [length]; lia|];
         split; [cbn; intros []|cbn; intros d []]|]).
  run_lift (@exec_Bind_lift_inl _ lib) (@exec_Bind_lift_inr _ lib).
  { split; [cbn; repeat constructor|].
    split; [cbn; repeat constructor|].
    split; [cbn; lia|].
    split; [cbn; lia|].
    split; [cbn [length]; lia|].
    split; [|cbn; intros d []].
    intros _. split; [|reflexivity].
    unfold getitem in E7. destruct (x6 !! 0%nat); congruence. }
  run_call (@exec_Bind_Call_inl _ lib) (@exec_Bind_Call_inr _ lib);
    [|cbn [exec res trace]];
    (split; [cbn; repeat constructor|];
     split; [cbn; repeat constructor|];
     split; [cbn; lia|];
     split; [cbn; lia|];
     split; [cbn [length]; lia|];
     split;
     [cbn; intros [Hx|[]]; subst x6; unfold getitem in E7; cbn in E7; discriminate E7
     |cbn; intros d [<-|[]]; exists x6; split; [left; reflexivity|apply getitem_inr; exact E7]]).
Qed.

(** X9.  When [Image.open(path).convert('RGB')] raises, the run stops there:
    no checkpoint is loaded, no device is asked for, nothing is generated
    or post-processed; at most the two image calls were made. *)
Theorem unopened_image_loads_nothing self w path p e w' :
  In p (captioners path ++ detectors path) ->
  fails_to_open_as_RGB lib w path e w' ->
  pretrained_loads (trace (exec lib p self w)) = [] /\
  devices_requested (trace (exec lib p self w)) = [] /\
  generation_budgets (trace (exec lib p self w)) = [] /\
  post_process_sizes (trace (exec lib p self w)) = [] /\
  (length (trace (exec lib p self w)) <= 2)%nat.
Proof.
  intros Hp Hfail.
  apply in_app_or in Hp as [->%captioners_same| ->%detectors_same];
    [unfold get_image_caption|unfold detect_objects]; cbv zeta;
    destruct Hfail as [Ho|(im0 & w0 & Ho & Hc)].
  - run_known (@exec_Bind_Call_inl _ lib) Ho. cbn. repeat split; lia.
  - run_known (@exec_Bind_Call_inr _ lib) Ho. run_known (@exec_Bind_Call_inl _ lib) Hc.
    cbn. repeat split; lia.
  - run_known (@exec_Bind_Call_inl _ lib) Ho. cbn. repeat split; lia.
  - run_known (@exec_Bind_Call_inr _ lib) Ho. run_known (@exec_Bind_Call_inl _ lib) Hc.
    cbn. repeat split; lia.
Qed.

(** X10.  The detection functions never move anything to a device, so they do
    not need a GPU; every device the captioning functions ask for is
    "cuda". *)
Theorem devices_asked_for self w path :
  devices_requested (trace (exec lib (ObjectDetectionTool._run path) self w)) = [] /\
  devices_requested (trace (exec lib (detect_objects path) self w)) = [] /\
  Forall (eq "cuda")
    (devices_requested (trace (exec lib (ImageCaptionTool._run path) self w))) /\
  Forall (eq "cuda")
    (devices_requested (trace (exec lib (get_image_caption path) self w))).
Proof.
  pose proof (detect_objects_log self w path) as (Hd & _).
  pose proof (get_image_caption_log self w path) as (Hc & _).
  repeat split; assumption.
Qed.

(** X12.  The target size given to post-processing is (height, width) of the
    image as converted to RGB: the reverse of its [size]. *)
Theorem post_process_scaled_to_converted_image self w path p sizes :
  In p (detectors path) ->
  In sizes (post_process_sizes (trace (exec lib p self w))) ->
  exists im,
    In im (converted_images (trace (exec lib p self w))) /\
    sizes = [[snd (image_size im); fst (image_size im)]].
Proof.
  intros ->%detectors_same Hin.
  pose proof (detect_objects_log self w path) as (_ & _ & Hsizes).
  apply Hsizes. exact Hin.
Qed.

(** X13.  A captioning run generates at most once and decodes at most once;
    what it decodes is the first sequence of the generated batch, always
    with [skip_special_tokens=True]. *)
Theorem caption_decodes_first_sequence self w path p :
  In p (captioners path) ->
  (length (generation_budgets (trace (exec lib p self w))) <= 1)%nat /\
  (length (decode_requests (trace (exec lib p self w))) <= 1)%nat /\
  forall ids skip, In (ids, skip) (decode_requests (trace (exec lib p self w))) ->
    skip = true /\
    exists seqs, In seqs (generated (trace (exec lib p self w))) /\ seqs !! 0%nat = Some ids.
Proof.
  intros ->%captioners_same.
  pose proof (get_image_caption_log self w path) as (_ & Hskip & Hg & Hd & _ & _ & Hfirst).
  split; [exact Hg|]. split; [exact Hd|].
  intros ids skip Hin. split.
  - rewrite Forall_forall in Hskip.
    apply (Hskip (ids, skip)). apply list_elem_of_In. exact Hin.
  - apply (Hfirst (ids, skip) Hin).
Qed.

(** X14.  When [generate] answers with an empty batch, [outputs[0]] raises
    [IndexError] and nothing is decoded. *)
Theorem empty_generation_raises_IndexError self w path p :
  In p (captioners path) ->
  In [] (generated (trace (exec lib p self w))) ->
  res (exec lib p self w) = inl (IndexError "index out of range") /\
  decode_requests (trace (exec lib p self w)) = [].
Proof.
  intros ->%captioners_same Hin.
  pose proof (get_image_caption_log self w path) as (_ & _ & _ & _ & _ & Hempty & _).
  apply Hempty. exact Hin.
Qed.

(** X15.  When post-processing answers with an empty list of results, the
    [[0]] raises [IndexError]. *)
Theorem empty_results_raise_IndexError self w path p processor outputs sizes threshold :
  In p (detectors path) ->
  answered (post_process_object_detection processor outputs sizes threshold) (inr [])
    (exec lib p self w) ->
  res (exec lib p self w) = inl (IndexError "index out of range").
Proof.
  intros ->%detectors_same Hans.
  destruct (detect_objects_answered lib self w path _ _ _ _ _ Hans) as (model & _ & ->).
  reflexivity.
Qed.

(** X1.  The detection functions are all or nothing: given the post-processed
    result, they return a text exactly when every row can be printed
    with the label table of the loaded model. *)
Theorem detection_all_or_nothing
    self w path p processor outputs sizes threshold rs results :
  In p (detectors path) ->
  answered (post_process_object_detection processor outputs sizes threshold) (inr rs)
    (exec lib p self w) ->
  rs !! 0%nat = Some results ->
  exists model,
    answered (DetrForObjectDetection_from_pretrained "facebook/detr-resnet-50")
      (inr model) (exec lib p self w) /\
    ((exists text, res (exec lib p self w) = inr text) <->
     Forall (printable (id2label model)) (rows_of results)).
Proof.
  intros ->%detectors_same Hans Hget.
  destruct (detect_objects_answered lib self w path _ _ _ _ _ Hans) as (model & Hmodel & ->).
  exists model. split; [exact Hmodel|].
  unfold getitem. rewrite Hget. cbn [then_].
  apply detections_loop_returns_iff.
Qed.

(** X2.  A detection whose label is not in [id2label] makes the run raise
    [KeyError] with that label, when the rows before it can be printed
    and its box too: the lines of the earlier rows are lost. *)
Theorem unknown_label_raises_KeyError
    self w path p processor outputs sizes threshold rs results
    good score label box rest :
  In p (detectors path) ->
  answered (post_process_object_detection processor outputs sizes threshold) (inr rs)
    (exec lib p self w) ->
  rs !! 0%nat = Some results ->
  rows_of results = good ++ (score, label, box) :: rest ->
  exists model,
    answered (DetrForObjectDetection_from_pretrained "facebook/detr-resnet-50")
      (inr model) (exec lib p self w) /\
    (Forall (printable (id2label model)) good ->
     (exists coords, format_box box = inr coords) ->
     id2label model !! label = None ->
     res (exec lib p self w) = inl (KeyError label)).
Proof.
  intros ->%detectors_same Hans Hget Hrows.
  destruct (detect_objects_answered lib self w path _ _ _ _ _ Hans) as (model & Hmodel & ->).
  exists model. split; [exact Hmodel|].
  intros Hgood Hbox Hnone.
  unfold getitem. rewrite Hget. cbn [then_]. rewrite Hrows.
  apply detections_loop_first_bad; assumption.
Qed.

(** X3.  A detection whose box cannot be printed makes the run raise the
    exception of the box, when the rows before it can be printed. *)
Theorem bad_box_raises
    self w path p processor outputs sizes threshold rs results
    good score label box rest e :
  In p (detectors path) ->
  answered (post_process_object_detection processor outputs sizes threshold) (inr rs)
    (exec lib p self w) ->
  rs !! 0%nat = Some results ->
  rows_of results = good ++ (score, label, box) :: rest ->
  format_box box = inl e ->
  exists model,
    answered (DetrForObjectDetection_from_pretrained "facebook/detr-resnet-50")
      (inr model) (exec lib p self w) /\
    (Forall (printable (id2label model)) good -> res (exec lib p self w) = inl e).
Proof.
  intros ->%detectors_same Hans Hget Hrows Hbox.
  destruct (detect_objects_answered lib self w path _ _ _ _ _ Hans) as (model & Hmodel & ->).
  exists model. split; [exact Hmodel|].
  intros Hgood.
  unfold getitem. rewrite Hget. cbn [then_]. rewrite Hrows.
  apply detections_loop_first_bad; assumption.
Qed.

(** X7.  The text returned has one line for each row that [zip] yields
    from the three tensors of the post-processed result, so as many
    lines as the shortest of the three has entries: line [i] is the line
    of row [i], and rows beyond the shortest tensor are not printed. *)
Theorem detection_count_is_shortest_tensor self w path p text :
  In p (detectors path) ->
  res (exec lib p self w) = inr text ->
  exists processor outputs sizes rs results model lines,
    answered (post_process_object_detection processor outputs sizes py_0_9) (inr rs)
      (exec lib p self w) /\
    answered (DetrForObjectDetection_from_pretrained "facebook/detr-resnet-50")
      (inr model) (exec lib p self w) /\
    rs !! 0%nat = Some results /\
    text = unlines lines /\
    Forall2 (detection_line (id2label model)) (rows_of results) lines /\
    length lines = (length (scores results) `min`
                    (length (labels results) `min` length (boxes results)))%nat.
Proof.
  intros ->%detectors_same Hret.
  apply detect_objects_returns in Hret
    as (processor & outputs & sizes & rs & w1 & w2 & results & model & lines
        & _ & Hans & Hmodel & Hget & Hlines & ->).
  exists processor, outputs, sizes, rs, results, model, lines.
  repeat split; try assumption.
  apply Forall2_length in Hlines. rewrite <- Hlines. apply zip3_length.
Qed.

(** X8.  When neither the class names of the loaded model nor the text of a
    float hold a newline, the text returned has exactly one newline per
    detection: it can be read back line by line. *)
Theorem one_newline_per_detection self w path p text :
  (forall x, count_newlines (float_str x) = 0%nat) ->
  (forall model k v, id2label model !! k = Some v -> count_newlines v = 0%nat) ->
  In p (detectors path) ->
  res (exec lib p self w) = inr text ->
  exists processor outputs sizes rs results,
    answered (post_process_object_detection processor outputs sizes py_0_9) (inr rs)
      (exec lib p self w) /\
    rs !! 0%nat = Some results /\
    count_newlines text = length (rows_of results).
Proof.
  intros Hfloat Hlabels ->%detectors_same Hret.
  apply detect_objects_returns in Hret
    as (processor & outputs & sizes & rs & w1 & w2 & results & model & lines
        & _ & Hans & _ & Hget & Hlines & ->).
  exists processor, outputs, sizes, rs, results.
  repeat split; try assumption.
  rewrite count_newlines_unlines.
  - symmetry. eapply Forall2_length. exact Hlines.
  - clear Hans Hget.
    induction Hlines as [|row line rows lines Hline _ IH]; constructor; [|exact IH].
    eapply count_newlines_detection_line; [exact Hfloat|apply Hlabels|exact Hline].
Qed.

End MoreRuns.

(** *** The further properties on concrete inputs *)

Lemma toy_float_str_one_line (x : spec_float) : count_newlines (float_str x) = 0%nat.
Proof.
  destruct x as [s|s| |s m e]; cbn [float_str Toy.platform].
  - destruct s; reflexivity.
  - destruct s; reflexivity.
  - reflexivity.
  - rewrite !count_newlines_app, !count_newlines_pretty_Z. destruct s; reflexivity.
Qed.

Lemma toy_labels_one_line (model : DetrModel) k v :
  id2label model !! k = Some v -> count_newlines v = 0%nat.
Proof.
  cbn [id2label Toy.platform]. unfold Toy.coco_labels. intros Hk.
  repeat (apply lookup_insert_Some in Hk as [[_ <-]|[_ Hk]]; [reflexivity|]).
  apply lookup_singleton_Some in Hk as [_ <-]. reflexivity.
Qed.

Lemma format_box_first_bad_coordinate_witness :
  format_box [Toy.f_of_Z 1; S754_nan; Toy.f_of_Z 3; Toy.f_of_Z 4]
    = inl (ValueError "cannot convert float NaN to integer").
Proof.
  refine (proj1 (proj2 (format_box_first_bad_coordinate
                          [Toy.f_of_Z 1; S754_nan; Toy.f_of_Z 3; Toy.f_of_Z 4] 1 _ _)) _).
  - lia.
  - intros j Hj. assert (j = 0%nat) as -> by lia.
    eexists. eexists. split; reflexivity.
  - reflexivity.
Defined.

Lemma unopened_image_loads_nothing_witness :
  pretrained_loads (trace (exec Toy.lib (get_image_caption "nope.png")
                             ImageCaptionTool.new Toy.home)) = [] /\
  devices_requested (trace (exec Toy.lib (get_image_caption "nope.png")
                              ImageCaptionTool.new Toy.home)) = [] /\
  generation_budgets (trace (exec Toy.lib (get_image_caption "nope.png")
                               ImageCaptionTool.new Toy.home)) = [] /\
  post_process_sizes (trace (exec Toy.lib (get_image_caption "nope.png")
                               ImageCaptionTool.new Toy.home)) = [] /\
  (length (trace (exec Toy.lib (get_image_caption "nope.png")
                    ImageCaptionTool.new Toy.home)) <= 2)%nat.
Proof.
  refine (unopened_image_loads_nothing Toy.lib ImageCaptionTool.new Toy.home "nope.png"
            (get_image_caption "nope.png")
            (Exception "FileNotFoundError" "nope.png") Toy.home _ _).
  - right. left. reflexivity.
  - left. reflexivity.
Defined.

Lemma post_process_scaled_to_converted_image_witness :
  exists im,
    In im (converted_images (trace (exec Toy.lib (detect_objects "traffic.jpg")
                                      ObjectDetectionTool.new Toy.home))) /\
    [[480; 640]] = [[snd (image_size im); fst (image_size im)]].
Proof.
  refine (post_process_scaled_to_converted_image Toy.lib ObjectDetectionTool.new Toy.home
            "traffic.jpg" (detect_objects "traffic.jpg") [[480; 640]] _ _).
  - right. left. reflexivity.
  - vm_compute. left. reflexivity.
Defined.

Lemma caption_decodes_first_sequence_witness :
  (length (generation_budgets (trace (exec Toy.lib (get_image_caption "traffic.jpg")
                                        ImageCaptionTool.new Toy.home))) <= 1)%nat.
Proof.
  refine (proj1 (caption_decodes_first_sequence Toy.lib ImageCaptionTool.new Toy.home
                   "traffic.jpg" (get_image_caption "traffic.jpg") _)).
  right. left. reflexivity.
Defined.

Lemma empty_generation_raises_IndexError_witness :
  res (exec Cases.silent (get_image_caption "traffic.jpg") ImageCaptionTool.new Toy.home)
    = inl (IndexError "index out of range") /\
  decode_requests (trace (exec Cases.silent (get_image_caption "traffic.jpg")
                            ImageCaptionTool.new Toy.home)) = [].
Proof.
  refine (empty_generation_raises_IndexError Cases.silent ImageCaptionTool.new Toy.home
            "traffic.jpg" (get_image_caption "traffic.jpg") _ _).
  - right. left. reflexivity.
  - vm_compute. left. reflexivity.
Defined.

Lemma empty_results_raise_IndexError_witness :
  res (exec Cases.silent (detect_objects "traffic.jpg") ObjectDetectionTool.new Toy.home)
    = inl (IndexError "index out of range").
Proof.
  refine (empty_results_raise_IndexError Cases.silent ObjectDetectionTool.new Toy.home
            "traffic.jpg" (detect_objects "traffic.jpg")
            tt Toy.traffic [[480; 640]] py_0_9 _ _).
  - right. left. reflexivity.
  - unfold answered. vm_compute. do 6 right. left. reflexivity.
Defined.

Lemma detection_all_or_nothing_witness :
  exists model,
    answered (DetrForObjectDetection_from_pretrained "facebook/detr-resnet-50")
      (inr model)
      (exec Toy.lib (detect_objects "stray.png") ObjectDetectionTool.new Cases.gallery) /\
    ((exists text,
        res (exec Toy.lib (detect_objects "stray.png") ObjectDetectionTool.new Cases.gallery)
          = inr text) <->
     Forall (printable (id2label model))
       (rows_of {| scores := [Toy.f_0_95; Toy.f_0_998; Toy.f_0_998];
                   labels := [3; 7; 1];
                   boxes := [ [Toy.f_of_Z 1; Toy.f_of_Z 2; Toy.f_of_Z 3; Toy.f_of_Z 4];
                              [Toy.f_of_Z 5; Toy.f_of_Z 6; Toy.f_of_Z 7; Toy.f_of_Z 8];
                              [Toy.f_of_Z 9; Toy.f_of_Z 9; Toy.f_of_Z 9; Toy.f_of_Z 9] ] |})).
Proof.
  refine (detection_all_or_nothing Toy.lib ObjectDetectionTool.new Cases.gallery
            "stray.png" (detect_objects "stray.png")
            tt Cases.stray [[48; 64]] py_0_9 (Toy.post_process Cases.stray py_0_9) _ _ _ _).
  - right. left. reflexivity.
  - unfold answered. vm_compute. do 6 right. left. reflexivity.
  - vm_compute. reflexivity.
Defined.

Lemma unknown_label_raises_KeyError_witness :
  res (exec Toy.lib (detect_objects "stray.png") ObjectDetectionTool.new Cases.gallery)
    = inl (KeyError 7).
Proof.
  destruct (unknown_label_raises_KeyError Toy.lib ObjectDetectionTool.new Cases.gallery
              "stray.png" (detect_objects "stray.png")
              tt Cases.stray [[48; 64]] py_0_9 (Toy.post_process Cases.stray py_0_9)
              {| scores := [Toy.f_0_95; Toy.f_0_998; Toy.f_0_998];
                 labels := [3; 7; 1];
                 boxes := [ [Toy.f_of_Z 1; Toy.f_of_Z 2; Toy.f_of_Z 3; Toy.f_of_Z 4];
                            [Toy.f_of_Z 5; Toy.f_of_Z 6; Toy.f_of_Z 7; Toy.f_of_Z 8];
                            [Toy.f_of_Z 9; Toy.f_of_Z 9; Toy.f_of_Z 9; Toy.f_of_Z 9] ] |}
              [ (Toy.f_0_95, 3, [Toy.f_of_Z 1; Toy.f_of_Z 2; Toy.f_of_Z 3; Toy.f_of_Z 4]) ]
              Toy.f_0_998 7 [Toy.f_of_Z 5; Toy.f_of_Z 6; Toy.f_of_Z 7; Toy.f_of_Z 8]
              [ (Toy.f_0_998, 1, [Toy.f_of_Z 9; Toy.f_of_Z 9; Toy.f_of_Z 9; Toy.f_of_Z 9]) ])
    as (model & _ & Hraise).
  - right. left. reflexivity.
  - unfold answered. vm_compute. do 6 right. left. reflexivity.
  - vm_compute. reflexivity.
  - reflexivity.
  - apply Hraise.
    + constructor; [|constructor]. split.
      * intros i Hi. destruct i as [|[|[|[|i]]]]; [| | | |lia];
          eexists; eexists; split; reflexivity.
      * eexists. vm_compute. reflexivity.
    + eexists. reflexivity.
    + vm_compute. reflexivity.
Defined.

Lemma bad_box_raises_witness :
  res (exec Toy.lib (detect_objects "wild.png") ObjectDetectionTool.new Cases.gallery)
    = inl (ValueError "cannot convert float NaN to integer").
Proof.
  destruct (bad_box_raises Toy.lib ObjectDetectionTool.new Cases.gallery
              "wild.png" (detect_objects "wild.png")
              tt Cases.wild [[48; 64]] py_0_9 (Toy.post_process Cases.wild py_0_9)
              {| scores := [Toy.f_0_95]; labels := [3];
                 boxes := [ [Toy.f_of_Z 1; S754_nan; Toy.f_of_Z 3; Toy.f_of_Z 4] ] |}
              [] Toy.f_0_95 3 [Toy.f_of_Z 1; S754_nan; Toy.f_of_Z 3; Toy.f_of_Z 4] []
              (ValueError "cannot convert float NaN to integer"))
    as (model & _ & Hraise).
  - right. left. reflexivity.
  - unfold answered. vm_compute. do 6 right. left. reflexivity.
  - vm_compute. reflexivity.
  - reflexivity.
  - reflexivity.
  - apply Hraise. constructor.
Defined.

Lemma detection_count_is_shortest_tensor_witness :
  exists processor outputs sizes rs results model lines,
    answered (post_process_object_detection processor outputs sizes py_0_9) (inr rs)
      (exec Cases.ragged (detect_objects "traffic.jpg") ObjectDetectionTool.new Toy.home) /\
    answered (DetrForObjectDetection_from_pretrained "facebook/detr-resnet-50")
      (inr model)
      (exec Cases.ragged (detect_objects "traffic.jpg") ObjectDetectionTool.new Toy.home) /\
    rs !! 0%nat = Some results /\
    "[1, 2, 3, 4] car 4278419646001971p-52" +:+ newline +:+
    "[5, 6, 7, 8] person 4494592428115755p-52" +:+ newline = unlines lines /\
    Forall2 (detection_line (id2label model)) (rows_of results) lines /\
    length lines = (length (scores results) `min`
                    (length (labels results) `min` length (boxes results)))%nat.
Proof.
  refine (detection_count_is_shortest_tensor Cases.ragged ObjectDetectionTool.new Toy.home
            "traffic.jpg" (detect_objects "traffic.jpg") _ _ _).
  - right. left. reflexivity.
  - vm_compute. reflexivity.
Defined.

Lemma one_newline_per_detection_witness :
  exists processor outputs sizes rs results,
    answered (post_process_object_detection processor outputs sizes py_0_9) (inr rs)
      (exec Toy.lib (detect_objects "traffic.jpg") ObjectDetectionTool.new Toy.home) /\
    rs !! 0%nat = Some results /\
    count_newlines ("[13, 52, 310, 269] car 4278419646001971p-52" +:+ newline +:+
                    "[400, 12, 431, 88] traffic light 4494592428115755p-52" +:+ newline)
      = length (rows_of results).
Proof.
  refine (one_newline_per_detection Toy.lib ObjectDetectionTool.new Toy.home
            "traffic.jpg" (detect_objects "traffic.jpg") _
            toy_float_str_one_line toy_labels_one_line _ _).
  - right. left. reflexivity.
  - vm_compute. reflexivity.
Defined.
